(** * E-commerce product classifier: registry, validation and handlers

    A shallow embedding of [categories.py] and of the request schemas, the
    response mapper and the two classification handlers of [main.py],
    followed by the properties of the service that are settled on it.

    Python values are modelled as follows.
    - [int] is [Z]; [str] is [string], one [ascii] per character, so
      [String.length] is Python's [len]: the texts covered are those whose
      characters have code points below 256, and a character beyond that
      range has no counterpart here. [float] is the kernel's binary64
      [float], the very format of a Python float.
    - [dict] is stdpp's [gmap]; a dict display or comprehension inserts its
      items from left to right, a later key replacing an earlier one.
    - A raised exception is a value of [PyError] in the [Raise] branch of
      [pyresult]; it records whether its class derives from [Exception],
      which is what an [except Exception] clause catches. What a handler
      hands back to the framework is an [outcome].
    - The text-classification pipeline is external: it is a [Classifier]
      record of two functions, one for a single text and one for a list. *)

From Stdlib Require Import ZArith Floats.PrimFloat.
From stdpp Require Import base option list strings gmap fin_maps pretty.

Local Open Scope string_scope.
Local Open Scope Z_scope.

(** ** Python runtime: exceptions and dictionaries *)

(** An exception raised by built-in or library code: its class, [str(exc)],
    and whether the class derives from [Exception]. [KeyboardInterrupt],
    [SystemExit] and the like derive from [BaseException] only. *)
Record PyError := mkPyError {
  exc_type : string;
  exc_str : string;
  exc_is_Exception : bool
}.

Inductive pyresult (A : Type) : Type :=
| Ok (a : A)
| Raise (e : PyError).
Arguments Ok {A} a.
Arguments Raise {A} e.

#[global] Instance pyresult_ret : MRet pyresult := λ A a, Ok a.
#[global] Instance pyresult_bind : MBind pyresult := λ A B f m,
  match m with
  | Ok a => f a
  | Raise e => Raise e
  end.
#[global] Instance pyresult_fmap : FMap pyresult := λ A B f m,
  match m with
  | Ok a => Ok (f a)
  | Raise e => Raise e
  end.

Definition KeyError (key : string) : PyError :=
  mkPyError "KeyError" ("'" ++ key ++ "'") true.
Definition TypeError (msg : string) : PyError := mkPyError "TypeError" msg true.
Definition AttributeError (msg : string) : PyError :=
  mkPyError "AttributeError" msg true.

Definition is_Ok {A} (r : pyresult A) : bool :=
  match r with
  | Ok _ => true
  | Raise _ => false
  end.

(** A dict display [{k1: v1, ..., kn: vn}]. *)
Definition dict_display {K V} `{Countable K} (items : list (K * V)) : gmap K V :=
  foldl (λ d kv, <[kv.1 := kv.2]> d) ∅ items.

(** [d[key]] on a dict with string keys. *)
Definition getitem {V} (d : gmap string V) (key : string) : pyresult V :=
  match d !! key with
  | Some v => Ok v
  | None => Raise (KeyError key)
  end.

(** [obj[key]] where [obj] may be [None], as the result of [dict.get] is. *)
Definition getitem_opt {V} (obj : option (gmap string V)) (key : string) : pyresult V :=
  match obj with
  | Some d => getitem d key
  | None => Raise (TypeError "'NoneType' object is not subscriptable")
  end.

(** The slice [l[:stop]]: the whole list for [None], the first [stop] items
    for a non-negative [stop], all but the last [-stop] for a negative one. *)
Definition slice_to {A} (l : list A) (stop : option Z) : list A :=
  match stop with
  | None => l
  | Some k =>
      if decide (k < 0) then take (length l - Z.to_nat (- k)) l
      else take (Z.to_nat k) l
  end.

(** ** categories.py *)

Definition category (name display_name description : string) : gmap string string :=
  dict_display
    [("name", name); ("display_name", display_name); ("description", description)].

(** The items of the [CATEGORIES] display, in source order. *)
Definition CATEGORIES_items : list (Z * gmap string string) :=
  [
    (0, category "electronics" "Electronics"
       "Televisions, cameras, audio speakers, headphones, home theater systems, drones, wearable devices, electronic accessories, chargers, cables, and consumer electronic gadgets");
    (1, category "computers_networking" "Computers & Networking"
       "Desktop computers, laptops, monitors, keyboards, mice, storage drives, RAM, graphics cards, networking routers, switches, printers, and computing components");
    (2, category "mobile_phones_tablets" "Mobile Phones & Tablets"
       "Smartphones, feature phones, tablets, e-readers, phone cases, screen protectors, power banks, SIM cards, and mobile device accessories");
    (3, category "fashion_clothing" "Fashion & Clothing"
       "Apparel and garments including tops, pants, dresses, skirts, suits, jackets, outerwear, underwear, activewear, uniforms, and clothing for men women and children");
    (4, category "shoes_footwear" "Shoes & Footwear"
       "Sneakers, boots, sandals, heels, loafers, slippers, sports shoes, formal shoes, shoe care products, insoles, and laces for men women and children");
    (5, category "bags_luggage" "Bags & Luggage"
       "Backpacks, handbags, suitcases, travel bags, laptop bags, messenger bags, duffel bags, trolley cases, wallets, clutches, and packing organizers");
    (6, category "watches" "Watches"
       "Wristwatches, luxury watches, digital watches, smartwatches, watch bands, watch tools, and watch storage boxes");
    (7, category "jewelry" "Jewelry"
       "Rings, necklaces, bracelets, earrings, brooches, anklets, gemstones, gold and silver jewelry, costume jewelry, and fine jewelry pieces");
    (8, category "fashion_accessories" "Fashion Accessories"
       "Sunglasses, hats, caps, scarves, gloves, belts, ties, keychains, hair clips, and wearable fashion accessories not classified as clothing or jewelry");
    (9, category "beauty_personal_care" "Beauty & Personal Care"
       "Skincare, makeup, cosmetics, hair care, fragrances, perfumes, oral care, bath and body products, shaving tools, grooming kits, and beauty devices");
    (10, category "health_wellness" "Health & Wellness"
       "Vitamins, dietary supplements, medical devices, first aid kits, health monitors, massage equipment, personal protective equipment, and wellness products");
    (11, category "sports_outdoors" "Sports & Outdoors"
       "Gym equipment, fitness gear, camping gear, hiking equipment, bicycles, fishing rods, yoga mats, sports balls, swimming goggles, and outdoor recreation products");
    (12, category "home_furniture" "Home Furniture"
       "Sofas, beds, tables, chairs, wardrobes, bookshelves, desks, cabinets, mattresses, shelving units, and indoor household furniture");
    (13, category "home_decor_lighting" "Home Decor & Lighting"
       "Wall art, picture frames, vases, candles, mirrors, rugs, curtains, throw pillows, ceiling lights, table lamps, floor lamps, and decorative items");
    (14, category "kitchen_dining" "Kitchen & Dining"
       "Cookware, pots, pans, knives, cutting boards, dinnerware, glassware, utensils, food storage containers, bakeware, and kitchen gadgets");
    (15, category "bedding_bath" "Bedding & Bath"
       "Bed sheets, pillows, blankets, comforters, duvet covers, towels, bathrobes, shower curtains, bath mats, and bathroom accessories");
    (16, category "large_appliances" "Large Appliances"
       "Refrigerators, washing machines, dryers, air conditioners, dishwashers, ovens, stoves, water heaters, and large household appliances");
    (17, category "small_appliances" "Small Appliances"
       "Blenders, coffee makers, toasters, microwaves, electric kettles, rice cookers, vacuum cleaners, irons, air fryers, and portable household appliances");
    (18, category "grocery_food" "Grocery & Food"
       "Packaged food, fresh produce, frozen food, snacks, beverages, cooking ingredients, spices, condiments, dairy, meat, seafood, and pantry staples");
    (19, category "baby_maternity" "Baby & Maternity"
       "Diapers, baby formula, feeding bottles, pacifiers, baby clothing, strollers, car seats, cribs, baby monitors, maternity wear, and infant care essentials");
    (20, category "toys_games" "Toys & Games"
       "Children's toys, board games, puzzles, action figures, dolls, building blocks, remote control vehicles, educational toys, stuffed animals, and play sets");
    (21, category "books_media" "Books & Media"
       "Physical books, novels, textbooks, comic books, manga, magazines, music CDs, vinyl records, movie DVDs, Blu-ray discs, and printed publications");
    (22, category "stationery_office_supplies" "Stationery & Office Supplies"
       "Pens, pencils, notebooks, paper, folders, staplers, desk organizers, calculators, whiteboards, and general office and school supplies");
    (23, category "pet_supplies" "Pet Supplies"
       "Pet food, treats, toys, grooming products, leashes, collars, pet beds, aquariums, cages, litter, and healthcare products for pets");
    (24, category "automotive_motorcycle" "Automotive & Motorcycle"
       "Car parts, motorcycle parts, tires, car electronics, dash cams, engine oil, car care products, seat covers, and vehicle maintenance tools");
    (25, category "tools_hardware" "Tools & Hardware"
       "Hand tools, power tools, drills, saws, screwdrivers, wrenches, fasteners, plumbing supplies, electrical supplies, and construction hardware");
    (26, category "garden_outdoor_living" "Garden & Outdoor Living"
       "Plants, seeds, gardening tools, pots, planters, lawn mowers, outdoor furniture, grills, barbecue accessories, and irrigation equipment");
    (27, category "musical_instruments" "Musical Instruments"
       "Guitars, pianos, keyboards, drums, violins, wind instruments, instrument strings, picks, amplifiers, and music recording equipment");
    (28, category "video_games_gaming" "Video Games & Gaming"
       "Gaming consoles, video games, gaming controllers, gaming headsets, gaming chairs, and gaming accessories designed specifically for video gaming");
    (29, category "software_digital_goods" "Software & Digital Goods"
       "Computer software, antivirus programs, operating systems, digital gift cards, e-books, online courses, and downloadable digital content");
    (30, category "arts_crafts" "Arts & Crafts"
       "Painting supplies, canvas, brushes, sewing kits, knitting yarn, scrapbooking materials, craft paper, glue guns, DIY project kits, and creative hobby materials");
    (31, category "industrial_commercial" "Industrial & Commercial"
       "Laboratory equipment, industrial machinery, safety gear, commercial supplies, packaging materials, janitorial products, and professional-grade tools")
  ].

Definition CATEGORIES : gmap Z (gmap string string) := dict_display CATEGORIES_items.

(** [{cat["name"]: cat_id for cat_id, cat in CATEGORIES.items()}], run at
    import time; a category without a ["name"] key would raise there. *)
Definition name_to_id_comprehension (items : list (Z * gmap string string))
  : pyresult (gmap string Z) :=
  foldl (λ acc item,
           d ← acc;
           name ← getitem item.2 "name";
           mret (<[name := item.1]> d))
        (Ok ∅) items.

Definition NAME_TO_ID : gmap string Z :=
  match name_to_id_comprehension CATEGORIES_items with
  | Ok d => d
  | Raise _ => ∅
  end.

Definition get_category_id (name : string) : option Z := NAME_TO_ID !! name.

Definition get_category_info (cat_id : Z) : option (gmap string string) :=
  CATEGORIES !! cat_id.

Definition get_all_categories : gmap Z (gmap string string) := CATEGORIES.

(** ** main.py: request and response schemas *)

Definition MODEL_NAME : string := "Lezh1n/xlm-roberta-ecommerce-classifier".

(** A member of a decoded JSON body: absent, [null], or a value of the
    JSON type the schema declares for it. A member of another JSON type
    (which the validator coerces or rejects) is not covered. *)
Inductive field (A : Type) : Type :=
| Missing
| Null
| Given (a : A).
Arguments Missing {A}.
Arguments Null {A}.
Arguments Given {A} a.

(** The error types pydantic reports for the constraints used below. *)
Inductive ErrorType : Type :=
| missing
| string_type
| string_too_short
| string_too_long
| list_type
| too_short
| too_long
| greater_than_equal
| less_than_equal.

Record ErrorDetails := mkError { loc : string; type : ErrorType }.

#[global] Instance ErrorType_eq_dec : EqDecision ErrorType.
Proof. solve_decision. Defined.
#[global] Instance ErrorDetails_eq_dec : EqDecision ErrorDetails.
Proof. solve_decision. Defined.

(** [name: str = Field(..., min_length=lo, max_length=hi)]: the bounds are
    on the number of characters. *)
Definition str_field (name : string) (lo hi : nat) (v : field string)
  : ErrorDetails + string :=
  match v with
  | Missing => inl (mkError name missing)
  | Null => inl (mkError name string_type)
  | Given s =>
      if decide (String.length s < lo)%nat then inl (mkError name string_too_short)
      else if decide (hi < String.length s)%nat then inl (mkError name string_too_long)
      else inr s
  end.

(** [name: List[str] = Field(..., min_length=lo, max_length=hi)]: the two
    bounds constrain the list, not its items. *)
Definition list_str_field (name : string) (lo hi : nat) (v : field (list string))
  : ErrorDetails + list string :=
  match v with
  | Missing => inl (mkError name missing)
  | Null => inl (mkError name list_type)
  | Given l =>
      if decide (length l < lo)%nat then inl (mkError name too_short)
      else if decide (hi < length l)%nat then inl (mkError name too_long)
      else inr l
  end.

(** [name: Optional[int] = Field(dflt, ge=lo, le=hi)]: an absent member
    takes the default, [null] is accepted as [None]. *)
Definition optional_int_field (name : string) (dflt lo hi : Z) (v : field Z)
  : ErrorDetails + option Z :=
  match v with
  | Missing => inr (Some dflt)
  | Null => inr None
  | Given k =>
      if decide (k < lo) then inl (mkError name greater_than_equal)
      else if decide (hi < k) then inl (mkError name less_than_equal)
      else inr (Some k)
  end.

Definition field_errors {A} (r : ErrorDetails + A) : list ErrorDetails :=
  match r with
  | inl e => [e]
  | inr _ => []
  end.

Inductive validated (A : Type) : Type :=
| Valid (a : A)
| Invalid (errors : list ErrorDetails).
Arguments Valid {A} a.
Arguments Invalid {A} errors.

Module ClassificationRequest.
Record payload := mkPayload { p_text : field string; p_top_k : field Z }.
Record t := mk { text : string; top_k : option Z }.

Definition validate (p : payload) : validated t :=
  match str_field "text" 1 2000 (p_text p),
        optional_int_field "top_k" 5 1 32 (p_top_k p) with
  | inr text, inr top_k => Valid (mk text top_k)
  | r1, r2 => Invalid (field_errors r1 ++ field_errors r2)
  end.
End ClassificationRequest.

Module BatchRequest.
Record payload := mkPayload { p_texts : field (list string); p_top_k : field Z }.
Record t := mk { texts : list string; top_k : option Z }.

Definition validate (p : payload) : validated t :=
  match list_str_field "texts" 1 100 (p_texts p),
        optional_int_field "top_k" 5 1 32 (p_top_k p) with
  | inr texts, inr top_k => Valid (mk texts top_k)
  | r1, r2 => Invalid (field_errors r1 ++ field_errors r2)
  end.
End BatchRequest.

Module Prediction.
Record t := mk {
  category_id : Z;
  category_name : string;
  display_name : string;
  score : float
}.
End Prediction.

Module ClassificationResponse.
Record t := mk {
  text : string;
  predictions : list Prediction.t;
  inference_time : float
}.
End ClassificationResponse.

Module BatchResponse.
Record t := mk {
  results : list ClassificationResponse.t;
  total_time : float;
  count : nat
}.
End BatchResponse.

(** ** The classifier capability and the application state *)

(** One entry [{"label": ..., "score": ...}] of a pipeline answer. *)
Module LabelScore.
Record t := mk { label : string; score : float }.
End LabelScore.

(** The pipeline object stored in [app.state.classifier]. [call_text] is
    [classifier(text, top_k=k)], [call_texts] is
    [classifier(texts, top_k=k, batch_size=b)]. Either may raise; an answer
    of another shape than a list of label/score entries makes the handlers'
    comprehensions raise inside the same [try], so it is covered by [Raise]. *)
Record Classifier := mkClassifier {
  call_text : string → option Z → pyresult (list LabelScore.t);
  call_texts : list string → option Z → Z → pyresult (list (list LabelScore.t))
}.

Record Model := mkModel { num_parameters : Z }.
Record Tokenizer := mkTokenizer { model_max_length : Z }.

(** [app.state]: each attribute is set or not. *)
Record State := mkState {
  classifier : option Classifier;
  model : option Model;
  tokenizer : option Tokenizer
}.

Definition initial_state : State := mkState None None None.

(** [lifespan] up to its [yield]: the pipeline, built with [top_k=None], and
    the model and tokenizer are published together. *)
Definition lifespan_startup (pipeline : Classifier) (m : Model) (t : Tokenizer)
    (st : State) : State :=
  mkState (Some pipeline) (Some m) (Some t).

(** [lifespan] after its [yield]: the three attributes are deleted. *)
Definition lifespan_shutdown (st : State) : State := mkState None None None.

(** [req.app.state.classifier] *)
Definition state_classifier (st : State) : pyresult Classifier :=
  match classifier st with
  | Some c => Ok c
  | None => Raise (AttributeError "'State' object has no attribute 'classifier'")
  end.

(** What a request ends in: the handler's return value, an [HTTPException]
    it raised, the framework's rejection of the body before the handler
    runs, or an exception nobody caught. *)
Inductive outcome (A : Type) : Type :=
| Response (a : A)
| HTTPException (status_code : Z) (detail : string)
| RequestValidationError (errors : list ErrorDetails)
| Unhandled (e : PyError).
Arguments Response {A} a.
Arguments HTTPException {A} status_code detail.
Arguments RequestValidationError {A} errors.
Arguments Unhandled {A} e.

(** ** main.py: helpers and endpoints *)

Definition _to_prediction (label : string) (score : float) : pyresult Prediction.t :=
  match get_category_id label with
  | None => Ok (Prediction.mk (-1) label "Unknown" score)
  | Some category_id =>
      display_name ← getitem_opt (get_category_info category_id) "display_name";
      Ok (Prediction.mk category_id label display_name score)
  end.

(** [[_to_prediction(p["label"], p["score"]) for p in raw[:top_k]]] *)
Definition to_predictions (raw : list LabelScore.t) (top_k : option Z)
  : pyresult (list Prediction.t) :=
  mapM (λ p, _to_prediction (LabelScore.label p) (LabelScore.score p))
       (slice_to raw top_k).

Module HealthInfo.
Record t := mk { status : string; model : string; device : string; categories : nat }.
End HealthInfo.

Definition health (DEVICE : string) (st : State) : outcome HealthInfo.t :=
  match classifier st with
  | None => HTTPException 503 "Model not loaded"
  | Some _ => Response (HealthInfo.mk "healthy" MODEL_NAME DEVICE (size CATEGORIES))
  end.

(** [classify]; [start] and [now] are the two readings of
    [time.perf_counter()]. The [except Exception] clause turns what the
    [try] body raises into a 500, unless the class lies outside [Exception]:
    such an exception leaves the handler as it is. *)
Definition classify (body : ClassificationRequest.t) (st : State) (start now : float)
  : outcome ClassificationResponse.t :=
  match state_classifier st with
  | Raise e => Unhandled e
  | Ok classifier =>
      let attempt :=
        raw ← call_text classifier (ClassificationRequest.text body)
                        (ClassificationRequest.top_k body);
        to_predictions raw (ClassificationRequest.top_k body) in
      match attempt with
      | Raise exc =>
          if exc_is_Exception exc
          then HTTPException 500 ("Classification failed: " ++ exc_str exc)
          else Unhandled exc
      | Ok predictions =>
          Response (ClassificationResponse.mk (ClassificationRequest.text body)
                      predictions (now - start)%float)
      end
  end.

Definition classify_batch (body : BatchRequest.t) (st : State) (start now : float)
  : outcome BatchResponse.t :=
  match state_classifier st with
  | Raise e => Unhandled e
  | Ok classifier =>
      let attempt :=
        all_raw ← call_texts classifier (BatchRequest.texts body)
                             (BatchRequest.top_k body) 32;
        mapM (λ item,
                predictions ← to_predictions item.2 (BatchRequest.top_k body);
                mret (ClassificationResponse.mk item.1 predictions 0%float))
             (zip (BatchRequest.texts body) all_raw) in
      match attempt with
      | Raise exc =>
          if exc_is_Exception exc
          then HTTPException 500 ("Batch classification failed: " ++ exc_str exc)
          else Unhandled exc
      | Ok results =>
          Response (BatchResponse.mk results (now - start)%float
                      (length (BatchRequest.texts body)))
      end
  end.

(** [@app.post("/classify")]: the framework validates the body against the
    schema and calls the handler only with a valid one. *)
Definition post_classify (p : ClassificationRequest.payload) (st : State)
    (start now : float) : outcome ClassificationResponse.t :=
  match ClassificationRequest.validate p with
  | Invalid errors => RequestValidationError errors
  | Valid body => classify body st start now
  end.

(** [@app.post("/classify/batch")] *)
Definition post_classify_batch (p : BatchRequest.payload) (st : State)
    (start now : float) : outcome BatchResponse.t :=
  match BatchRequest.validate p with
  | Invalid errors => RequestValidationError errors
  | Valid body => classify_batch body st start now
  end.

(** ** Test doubles used by the examples *)

(** Scores halve from one entry to the next, starting at [first]. *)
Fixpoint halving_ranking (first : float) (labels : list string) : list LabelScore.t :=
  match labels with
  | [] => []
  | l :: labels => LabelScore.mk l first :: halving_ranking (first * 0.5)%float labels
  end.

(** All registered names, by id, best first. *)
Definition sample_ranking : list LabelScore.t :=
  halving_ranking 0.5%float
    (omap (λ item : Z * gmap string string, item.2 !! "name") CATEGORIES_items).

(** A pipeline that answers every text with the same ranking, cut to the
    requested depth as the real pipeline does. *)
Definition fixed_pipeline (ranking : list LabelScore.t) : Classifier :=
  mkClassifier
    (λ _ top_k, Ok (slice_to ranking top_k))
    (λ texts top_k _, Ok ((λ _, slice_to ranking top_k) <$> texts)).

(** A pipeline whose only label tells which depth it was called with, and
    echoes the text it was given. *)
Definition probe_pipeline : Classifier :=
  let answer (text : string) (top_k : option Z) :=
    [LabelScore.mk (match top_k with
                    | None => "full ranking of "
                    | Some _ => "capped ranking of "
                    end ++ text) 1%float] in
  mkClassifier
    (λ text top_k, Ok (answer text top_k))
    (λ texts top_k _, Ok ((λ text, answer text top_k) <$> texts)).

Definition ready_state (c : Classifier) : State :=
  lifespan_startup c (mkModel 0) (mkTokenizer 512) initial_state.

(** A text of 2001 characters. *)
Definition long_text : string := String.string_of_list_ascii (replicate 2001 (Ascii.ascii_of_nat 97)).

(** Scores in non-increasing order, each compared with the next. *)
Fixpoint non_increasing (scores : list float) : bool :=
  match scores with
  | a :: (b :: _) as rest => PrimFloat.leb b a && non_increasing rest
  | _ => true
  end.

(** A ranking over the whole taxonomy, best score first. *)
Definition full_ranking (raw : list LabelScore.t) : Prop :=
  length raw = size CATEGORIES ∧ non_increasing (LabelScore.score <$> raw) = true.

(** A ranking that reaches depth [k]: at least [k] entries, best score
    first. A full ranking reaches every depth up to the number of
    categories; the [k] best entries alone reach depth [k]. *)
Definition ranking_of_depth (k : Z) (raw : list LabelScore.t) : Prop :=
  (Z.to_nat k ≤ length raw)%nat ∧ non_increasing (LabelScore.score <$> raw) = true.

(** A pipeline that ignores the requested depth and always answers with the
    whole of [ranking]. *)
Definition unbounded_pipeline (ranking : list LabelScore.t) : Classifier :=
  mkClassifier
    (λ _ _, Ok ranking)
    (λ texts _ _, Ok ((λ _, ranking) <$> texts)).

(** Follows the spec's words for [classifyOne], not the source: the
    capability is asked for the full ranking (no depth), and the answer is
    cut to [top_k] afterwards. It is compared with [classify] below. *)
Definition classifyOne_spec (c : Classifier) (text : string) (top_k : option Z)
    (start now : float) : outcome ClassificationResponse.t :=
  match raw ← call_text c text None; to_predictions raw top_k with
  | Raise exc => HTTPException 500 ("Classification failed: " ++ exc_str exc)
  | Ok predictions =>
      Response (ClassificationResponse.mk text predictions (now - start)%float)
  end.

(** ** main.py: the general, category and information endpoints *)

(** A handler body without a [try]: an exception it raises is not caught. *)
Definition respond {A} (r : pyresult A) : outcome A :=
  match r with
  | Ok a => Response a
  | Raise e => Unhandled e
  end.

(** [d[k] = v] on an insertion-ordered dict kept as an association list: a
    key already present keeps its place and takes the new value. *)
Fixpoint alist_setitem {K V} `{EqDecision K} (k : K) (v : V) (d : list (K * V))
  : list (K * V) :=
  match d with
  | [] => [(k, v)]
  | (k', v') :: d =>
      if decide (k = k') then (k, v) :: d else (k', v') :: alist_setitem k v d
  end.

(** [list(d.items())] for the dict [d] that a display builds. *)
Definition display_dict_items {K V} `{EqDecision K} (items : list (K * V)) : list (K * V) :=
  foldl (λ d kv, alist_setitem kv.1 kv.2 d) [] items.

Module CategoryInfo.
Record t := mk {
  category_id : Z;
  name : string;
  display_name : string;
  description : string
}.
End CategoryInfo.

(** [CategoryInfo(category_id=category_id, name=info["name"],
    display_name=info["display_name"], description=info["description"])] *)
Definition category_info (category_id : Z) (info : option (gmap string string))
  : pyresult CategoryInfo.t :=
  name ← getitem_opt info "name";
  display_name ← getitem_opt info "display_name";
  description ← getitem_opt info "description";
  mret (CategoryInfo.mk category_id name display_name description).

Module RootInfo.
Record t := mk {
  message : string;
  model : string;
  version : string;
  categories : nat;
  docs : string
}.
End RootInfo.

Definition root : outcome RootInfo.t :=
  Response (RootInfo.mk "E-Commerce Product Classification API" MODEL_NAME "2.0.0"
              (size CATEGORIES) "/docs").

Definition get_category_by_name (category_name : string) : outcome CategoryInfo.t :=
  match get_category_id category_name with
  | None => HTTPException 404 ("Category '" ++ category_name ++ "' not found")
  | Some category_id =>
      respond (category_info category_id (get_category_info category_id))
  end.

Definition get_category (category_id : Z) : outcome CategoryInfo.t :=
  if decide (category_id < 0 ∨ category_id >= Z.of_nat (size CATEGORIES))
  then HTTPException 404
         ("Category ID " ++ pretty category_id ++ " not found. Valid range: 0-31")
  else respond (category_info category_id (get_category_info category_id)).

Definition list_categories : outcome (list CategoryInfo.t) :=
  respond (mapM (λ item : Z * gmap string string,
                   category_info item.1 (Some item.2))
                (display_dict_items CATEGORIES_items)).

Module ModelInfo.
Record t := mk {
  model_name : string;
  base_model : string;
  device : string;
  num_parameters : Z;
  num_categories : nat;
  category_id_range : string;
  max_sequence_length : Z;
  accuracy : string;
  f1_score : string
}.
End ModelInfo.

(** [req.app.state.model] and [req.app.state.tokenizer] *)
Definition state_model (st : State) : pyresult Model :=
  match model st with
  | Some m => Ok m
  | None => Raise (AttributeError "'State' object has no attribute 'model'")
  end.

Definition state_tokenizer (st : State) : pyresult Tokenizer :=
  match tokenizer st with
  | Some t => Ok t
  | None => Raise (AttributeError "'State' object has no attribute 'tokenizer'")
  end.

Definition model_info (DEVICE : string) (st : State) : outcome ModelInfo.t :=
  match model st with
  | None => HTTPException 503 "Model not loaded"
  | Some _ =>
      respond (m ← state_model st;
               t ← state_tokenizer st;
               mret (ModelInfo.mk MODEL_NAME "FacebookAI/xlm-roberta-base" DEVICE
                       (num_parameters m) (size CATEGORIES) "0-31"
                       (model_max_length t) "90.14%" "90.00%"))
  end.

(** The states the application goes through: [lifespan] publishes the three
    attributes on startup and deletes them on shutdown. *)
Inductive lifespan_reachable : State → Prop :=
| reachable_initial : lifespan_reachable initial_state
| reachable_startup (st : State) (pipeline : Classifier) (m : Model) (t : Tokenizer) :
    lifespan_reachable st → lifespan_reachable (lifespan_startup pipeline m t st)
| reachable_shutdown (st : State) :
    lifespan_reachable st → lifespan_reachable (lifespan_shutdown st).

(** A pipeline that raises on every call. *)
Definition failing_pipeline (e : PyError) : Classifier :=
  mkClassifier (λ _ _, Raise e) (λ _ _ _, Raise e).

(** What one item of the batch comprehension evaluates to. *)
Definition batch_item_result (top_k : option Z) (item : string * list LabelScore.t)
    (r : ClassificationResponse.t) : Prop :=
  ∃ predictions,
    to_predictions item.2 top_k = Ok predictions
    ∧ r = ClassificationResponse.mk item.1 predictions 0%float.

(** * Properties *)

(** ** The result monad and list traversal *)

Section mapM_pyresult.
Context {A B : Type} (f : A → pyresult B).

Lemma mapM_Ok_Forall2 l k :
  mapM f l = Ok k ↔ Forall2 (λ x y, f x = Ok y) l k.
Proof.
  revert k. induction l as [|x l IH]; intros k; simpl.
  - split.
    + intros [= <-]. constructor.
    + intros ->%Forall2_nil_inv_l. reflexivity.
  - split.
    + destruct (f x) as [y|e] eqn:Hx; simpl; [|discriminate].
      destruct (mapM f l) as [k'|e] eqn:Hl; simpl; [|discriminate].
      intros [= <-]. constructor; [assumption|]. by apply IH.
    + intros (y & k' & Hy & Hk & ->)%Forall2_cons_inv_l.
      rewrite Hy. simpl. apply IH in Hk. rewrite Hk. reflexivity.
Qed.

Lemma mapM_total l :
  (∀ x, x ∈ l → ∃ y, f x = Ok y) → ∃ k, mapM f l = Ok k.
Proof.
  induction l as [|x l IH]; intros Hf; simpl.
  - by eexists.
  - destruct (Hf x) as [y Hy]; [left|].
    destruct IH as [k Hk]; [intros ??; apply Hf; by right|].
    exists (y :: k). rewrite Hy. simpl. rewrite Hk. reflexivity.
Qed.

Lemma mapM_Ok_length l k : mapM f l = Ok k → length k = length l.
Proof. intros H%mapM_Ok_Forall2. symmetry. by eapply Forall2_length. Qed.
End mapM_pyresult.

(** ** Slices and sorted scores *)

Lemma slice_to_length_le {A} (l : list A) (k : Z) :
  0 ≤ k → (length (slice_to l (Some k)) ≤ Z.to_nat k)%nat.
Proof.
  intros Hk. unfold slice_to. case_decide; [lia|]. rewrite length_take. lia.
Qed.

Lemma slice_to_length_exact {A} (l : list A) (k : Z) :
  0 ≤ k → (Z.to_nat k ≤ length l)%nat →
  length (slice_to l (Some k)) = Z.to_nat k.
Proof.
  intros Hk Hl. unfold slice_to. case_decide; [lia|]. rewrite length_take. lia.
Qed.

Lemma non_increasing_take (n : nat) (scores : list float) :
  non_increasing scores = true → non_increasing (take n scores) = true.
Proof.
  revert n. induction scores as [|a scores IH]; intros n H.
  - by destruct n.
  - destruct n as [|n]; [reflexivity|].
    destruct scores as [|b scores]; [by destruct n|].
    destruct n as [|n]; [reflexivity|].
    simpl in H. apply andb_prop in H as [Hab Hrest].
    change (PrimFloat.leb b a && non_increasing (take (S n) (b :: scores)) = true).
    rewrite Hab. simpl. apply (IH (S n)). exact Hrest.
Qed.

Lemma non_increasing_slice_to (scores : list float) (top_k : option Z) :
  non_increasing scores = true → non_increasing (slice_to scores top_k) = true.
Proof.
  intros H. destruct top_k as [k|]; [|exact H].
  unfold slice_to. case_decide; by apply non_increasing_take.
Qed.

Lemma slice_to_fmap {A B} (g : A → B) (l : list A) (top_k : option Z) :
  g <$> slice_to l top_k = slice_to (g <$> l) top_k.
Proof.
  destruct top_k as [k|]; [|reflexivity].
  unfold slice_to. rewrite length_fmap. case_decide; by rewrite fmap_take.
Qed.

(** ** The registry *)

(** Importing [categories.py] succeeds: every category has a name. *)
Lemma NAME_TO_ID_import : name_to_id_comprehension CATEGORIES_items = Ok NAME_TO_ID.
Proof.
  assert (is_Ok (name_to_id_comprehension CATEGORIES_items) = true) as Hok
    by (vm_compute; reflexivity).
  unfold NAME_TO_ID. revert Hok.
  generalize (name_to_id_comprehension CATEGORIES_items).
  intros [d|e]; [reflexivity|discriminate].
Qed.

(** The ids of the display are distinct, so [CATEGORIES.items()] yields the
    items of the display, in the order they are written. *)
Lemma CATEGORIES_items_NoDup : NoDup (CATEGORIES_items.*1).
Proof. apply (bool_decide_unpack _). vm_compute. reflexivity. Qed.

Lemma CATEGORIES_items_lookup :
  Forall (λ item, CATEGORIES !! item.1 = Some item.2) CATEGORIES_items.
Proof. apply (bool_decide_unpack _). vm_compute. reflexivity. Qed.

(** Every name of [NAME_TO_ID] is the name of the category it maps to. *)
Lemma NAME_TO_ID_values :
  map_Forall (λ (name : string) (id : Z),
                (CATEGORIES !! id) ≫= (λ cat, cat !! "name") = Some name)
             NAME_TO_ID.
Proof. apply (bool_decide_unpack _). vm_compute. reflexivity. Qed.

(** Every category has a display name, and its name maps back to its id. *)
Lemma CATEGORIES_values :
  map_Forall (λ (id : Z) (cat : gmap string string),
                (cat !! "name") ≫= (λ name, NAME_TO_ID !! name) = Some id
                ∧ is_Some (cat !! "display_name"))
             CATEGORIES.
Proof. apply (bool_decide_unpack _). vm_compute. reflexivity. Qed.

(** From here on the two tables are used through the lemmas above only. *)
#[global] Opaque CATEGORIES_items CATEGORIES NAME_TO_ID.

Lemma get_category_id_info (name : string) (id : Z) :
  get_category_id name = Some id →
  ∃ cat display_name,
    get_category_info id = Some cat
    ∧ cat !! "name" = Some name
    ∧ cat !! "display_name" = Some display_name.
Proof.
  unfold get_category_id, get_category_info. intros Hid.
  apply NAME_TO_ID_values in Hid. cbv beta in Hid.
  apply bind_Some in Hid as (cat & Hcat & Hname).
  apply CATEGORIES_values in Hcat as Hdn. cbv beta in Hdn.
  destruct Hdn as [_ [display_name Hdn]].
  exists cat, display_name. repeat split; assumption.
Qed.

Lemma get_category_info_id (id : Z) (cat : gmap string string) :
  get_category_info id = Some cat →
  ∃ name, cat !! "name" = Some name ∧ get_category_id name = Some id.
Proof.
  unfold get_category_id, get_category_info. intros Hcat.
  apply CATEGORIES_values in Hcat. cbv beta in Hcat.
  destruct Hcat as [Hname _].
  apply bind_Some in Hname as (name & Hname & Hid).
  exists name. split; assumption.
Qed.

(** ** The response mapper *)

Lemma _to_prediction_unknown (label : string) (score : float) :
  get_category_id label = None →
  _to_prediction label score = Ok (Prediction.mk (-1) label "Unknown" score).
Proof. intros H. unfold _to_prediction. by rewrite H. Qed.

Lemma _to_prediction_known (label : string) (score : float) (id : Z) :
  get_category_id label = Some id →
  ∃ display_name,
    getitem_opt (get_category_info id) "display_name" = Ok display_name
    ∧ _to_prediction label score = Ok (Prediction.mk id label display_name score).
Proof.
  intros H. destruct (get_category_id_info _ _ H) as (cat & dn & Hcat & _ & Hdn).
  exists dn. unfold _to_prediction, getitem_opt, getitem.
  by rewrite H, Hcat, Hdn.
Qed.

Lemma _to_prediction_total (label : string) (score : float) :
  ∃ p, _to_prediction label score = Ok p.
Proof.
  destruct (get_category_id label) as [id|] eqn:H.
  - destruct (_to_prediction_known label score id H) as (dn & _ & ->). by eexists.
  - rewrite _to_prediction_unknown by done. by eexists.
Qed.

Lemma _to_prediction_fields (label : string) (score : float) (p : Prediction.t) :
  _to_prediction label score = Ok p →
  Prediction.category_name p = label ∧ Prediction.score p = score.
Proof.
  unfold _to_prediction. destruct (get_category_id label) as [id|].
  - destruct (getitem_opt (get_category_info id) "display_name") as [dn|e];
      cbn [mbind pyresult_bind]; [|discriminate].
    intros [= <-]. split; reflexivity.
  - intros [= <-]. split; reflexivity.
Qed.

(** The comprehension over the truncated answer never raises, and keeps one
    prediction per entry, in order. *)
Lemma to_predictions_total (raw : list LabelScore.t) (top_k : option Z) :
  ∃ predictions,
    to_predictions raw top_k = Ok predictions
    ∧ Forall2 (λ p q, _to_prediction (LabelScore.label p) (LabelScore.score p) = Ok q)
              (slice_to raw top_k) predictions.
Proof.
  unfold to_predictions.
  destruct (mapM_total
              (λ p, _to_prediction (LabelScore.label p) (LabelScore.score p))
              (slice_to raw top_k)) as [k Hk].
  - intros p _. apply _to_prediction_total.
  - exists k. split; [exact Hk|]. by apply mapM_Ok_Forall2.
Qed.

Lemma to_predictions_Ok_inv (raw : list LabelScore.t) (top_k : option Z)
    (predictions : list Prediction.t) :
  to_predictions raw top_k = Ok predictions →
  length predictions = length (slice_to raw top_k)
  ∧ Prediction.score <$> predictions = LabelScore.score <$> slice_to raw top_k
  ∧ Prediction.category_name <$> predictions = LabelScore.label <$> slice_to raw top_k.
Proof.
  unfold to_predictions. intros H%mapM_Ok_Forall2.
  induction H as [|p q l k Hpq _ (IH1 & IH2 & IH3)]; [done|].
  apply _to_prediction_fields in Hpq as [Hn Hs].
  rewrite !fmap_cons, IH2, IH3, Hn, Hs. simpl. by rewrite IH1.
Qed.

(** ** The handlers *)

Lemma classify_ready (body : ClassificationRequest.t) (st : State) (c : Classifier)
    (raw : list LabelScore.t) (start now : float) :
  classifier st = Some c →
  call_text c (ClassificationRequest.text body) (ClassificationRequest.top_k body) = Ok raw →
  ∃ predictions,
    to_predictions raw (ClassificationRequest.top_k body) = Ok predictions
    ∧ classify body st start now
      = Response (ClassificationResponse.mk (ClassificationRequest.text body)
                    predictions (now - start)%float).
Proof.
  intros Hc Hraw.
  destruct (to_predictions_total raw (ClassificationRequest.top_k body))
    as (predictions & Hp & _).
  exists predictions. split; [exact Hp|].
  unfold classify, state_classifier. rewrite Hc, Hraw.
  cbn [mbind pyresult_bind]. rewrite Hp. reflexivity.
Qed.

Lemma classify_Response_inv (body : ClassificationRequest.t) (st : State)
    (start now : float) (resp : ClassificationResponse.t) :
  classify body st start now = Response resp →
  ∃ c raw,
    classifier st = Some c
    ∧ call_text c (ClassificationRequest.text body) (ClassificationRequest.top_k body)
      = Ok raw
    ∧ to_predictions raw (ClassificationRequest.top_k body)
      = Ok (ClassificationResponse.predictions resp)
    ∧ ClassificationResponse.text resp = ClassificationRequest.text body.
Proof.
  unfold classify, state_classifier.
  destruct (classifier st) as [c|]; [|discriminate].
  destruct (call_text c _ _) as [raw|e] eqn:Hraw; cbn [mbind pyresult_bind];
    [|destruct (exc_is_Exception e); discriminate].
  destruct (to_predictions raw _) as [predictions|e] eqn:Hp;
    [|destruct (exc_is_Exception e); discriminate].
  intros [= <-]. exists c, raw. repeat split; assumption.
Qed.

Lemma batch_comprehension_Ok (top_k : option Z)
    (items : list (string * list LabelScore.t)) (results : list ClassificationResponse.t) :
  mapM (λ item : string * list LabelScore.t,
          predictions ← to_predictions item.2 top_k;
          mret (ClassificationResponse.mk item.1 predictions 0%float)) items
  = Ok results
  ↔ Forall2 (batch_item_result top_k) items results.
Proof.
  rewrite mapM_Ok_Forall2.
  split; intros H; eapply Forall2_impl; try exact H; clear H;
    intros item r; unfold batch_item_result;
    destruct (to_predictions item.2 top_k) as [predictions|e];
    cbn [mbind pyresult_bind mret pyresult_ret].
  - intros [= <-]. by exists predictions.
  - discriminate.
  - intros (p & [= <-] & ->). reflexivity.
  - intros (p & Hp & _). discriminate.
Qed.

Lemma batch_comprehension_total (top_k : option Z)
    (items : list (string * list LabelScore.t)) :
  ∃ results,
    mapM (λ item : string * list LabelScore.t,
            predictions ← to_predictions item.2 top_k;
            mret (ClassificationResponse.mk item.1 predictions 0%float)) items
    = Ok results.
Proof.
  apply mapM_total. intros item _.
  destruct (to_predictions_total item.2 top_k) as (predictions & Hp & _).
  rewrite Hp. by eexists.
Qed.

Lemma classify_batch_ready (body : BatchRequest.t) (st : State) (c : Classifier)
    (all_raw : list (list LabelScore.t)) (start now : float) :
  classifier st = Some c →
  call_texts c (BatchRequest.texts body) (BatchRequest.top_k body) 32 = Ok all_raw →
  ∃ results,
    Forall2 (batch_item_result (BatchRequest.top_k body))
            (zip (BatchRequest.texts body) all_raw) results
    ∧ classify_batch body st start now
      = Response (BatchResponse.mk results (now - start)%float
                    (length (BatchRequest.texts body))).
Proof.
  intros Hc Hraw.
  destruct (batch_comprehension_total (BatchRequest.top_k body)
              (zip (BatchRequest.texts body) all_raw)) as [results Hres].
  exists results. split; [by apply batch_comprehension_Ok|].
  unfold classify_batch, state_classifier. rewrite Hc, Hraw.
  cbn [mbind pyresult_bind]. rewrite Hres. reflexivity.
Qed.

Lemma classify_batch_Response_inv (body : BatchRequest.t) (st : State)
    (start now : float) (resp : BatchResponse.t) :
  classify_batch body st start now = Response resp →
  ∃ c all_raw,
    classifier st = Some c
    ∧ call_texts c (BatchRequest.texts body) (BatchRequest.top_k body) 32 = Ok all_raw
    ∧ Forall2 (batch_item_result (BatchRequest.top_k body))
              (zip (BatchRequest.texts body) all_raw) (BatchResponse.results resp)
    ∧ BatchResponse.count resp = length (BatchRequest.texts body).
Proof.
  unfold classify_batch, state_classifier.
  destruct (classifier st) as [c|]; [|discriminate].
  destruct (call_texts c _ _ _) as [all_raw|e] eqn:Hraw; cbn [mbind pyresult_bind];
    [|destruct (exc_is_Exception e); discriminate].
  match goal with
  | |- context [mapM ?f ?l] => destruct (mapM f l) as [results|e] eqn:Hres
  end; [|destruct (exc_is_Exception e); discriminate].
  intros [= <-]. exists c, all_raw. repeat split; try assumption.
  by apply batch_comprehension_Ok.
Qed.

Lemma batch_results_texts (top_k : option Z) (texts : list string)
    (all_raw : list (list LabelScore.t)) (results : list ClassificationResponse.t) :
  Forall2 (batch_item_result top_k) (zip texts all_raw) results →
  ClassificationResponse.text <$> results = take (length all_raw) texts.
Proof.
  revert all_raw results. induction texts as [|t texts IH]; intros all_raw results H.
  - apply Forall2_nil_inv_l in H as ->. by rewrite take_nil.
  - destruct all_raw as [|raw all_raw]; simpl in H.
    + by apply Forall2_nil_inv_l in H as ->.
    + apply Forall2_cons_inv_l in H as (r & results' & (p & _ & ->) & H & ->).
      simpl. f_equal. by apply IH.
Qed.

Lemma batch_results_bounded (top_k : option Z) (bound : nat)
    (items : list (string * list LabelScore.t)) (results : list ClassificationResponse.t) :
  (∀ raw : list LabelScore.t, length (slice_to raw top_k) ≤ bound)%nat →
  Forall2 (batch_item_result top_k) items results →
  Forall (λ r, length (ClassificationResponse.predictions r) ≤ bound)%nat results.
Proof.
  intros Hb H. induction H as [|item r items results (p & Hp & ->) _ IH]; constructor.
  - apply to_predictions_Ok_inv in Hp as (Hlen & _). simpl. rewrite Hlen. apply Hb.
  - exact IH.
Qed.

(** ** Validation *)

Lemma optional_int_field_Given (name : string) (dflt lo hi k : Z) :
  optional_int_field name dflt lo hi (Given k)
  = if decide (k < lo) then inl (mkError name greater_than_equal)
    else if decide (hi < k) then inl (mkError name less_than_equal)
    else inr (Some k).
Proof. reflexivity. Qed.

Lemma str_field_valid (name : string) (lo hi : nat) (s : string) :
  (lo ≤ String.length s ≤ hi)%nat → str_field name lo hi (Given s) = inr s.
Proof. intros [??]. unfold str_field. repeat case_decide; (lia || reflexivity). Qed.

Lemma list_str_field_valid (name : string) (lo hi : nat) (l : list string) :
  (lo ≤ length l ≤ hi)%nat → list_str_field name lo hi (Given l) = inr l.
Proof. intros [??]. unfold list_str_field. repeat case_decide; (lia || reflexivity). Qed.

Lemma top_k_field_in_range (k : Z) :
  1 ≤ k ≤ 32 → optional_int_field "top_k" 5 1 32 (Given k) = inr (Some k).
Proof. intros [??]. rewrite optional_int_field_Given. repeat case_decide; (lia || reflexivity). Qed.

Lemma top_k_field_out_of_range (k : Z) :
  k < 1 ∨ 32 < k →
  optional_int_field "top_k" 5 1 32 (Given k)
  = inl (mkError "top_k" (if decide (k < 1) then greater_than_equal else less_than_equal)).
Proof. intros ?. rewrite optional_int_field_Given. repeat case_decide; (lia || reflexivity). Qed.

(** A body that passes validation carries the submitted [top_k] unchanged,
    and that value lies within the declared bounds. *)
Lemma top_k_field_inr (v : field Z) (top_k : option Z) :
  optional_int_field "top_k" 5 1 32 v = inr top_k →
  match v with
  | Missing => top_k = Some 5
  | Null => top_k = None
  | Given k => top_k = Some k ∧ 1 ≤ k ≤ 32
  end.
Proof.
  destruct v as [| |k]; simpl.
  - by intros [= <-].
  - by intros [= <-].
  - repeat case_decide; intros [= <-]. split; [reflexivity|lia].
Qed.

Lemma single_validate_Valid (p : ClassificationRequest.payload)
    (body : ClassificationRequest.t) :
  ClassificationRequest.validate p = Valid body →
  str_field "text" 1 2000 (ClassificationRequest.p_text p)
  = inr (ClassificationRequest.text body)
  ∧ optional_int_field "top_k" 5 1 32 (ClassificationRequest.p_top_k p)
    = inr (ClassificationRequest.top_k body).
Proof.
  unfold ClassificationRequest.validate.
  destruct (str_field _ _ _ _), (optional_int_field _ _ _ _ _); try discriminate.
  by intros [= <-].
Qed.

Lemma batch_validate_Valid (p : BatchRequest.payload) (body : BatchRequest.t) :
  BatchRequest.validate p = Valid body →
  list_str_field "texts" 1 100 (BatchRequest.p_texts p) = inr (BatchRequest.texts body)
  ∧ optional_int_field "top_k" 5 1 32 (BatchRequest.p_top_k p)
    = inr (BatchRequest.top_k body).
Proof.
  unfold BatchRequest.validate.
  destruct (list_str_field _ _ _ _), (optional_int_field _ _ _ _ _); try discriminate.
  by intros [= <-].
Qed.

Lemma single_validate_top_k_error (t : field string) (k : Z) :
  k < 1 ∨ 32 < k →
  ∃ errors,
    ClassificationRequest.validate (ClassificationRequest.mkPayload t (Given k))
    = Invalid errors
    ∧ mkError "top_k" (if decide (k < 1) then greater_than_equal else less_than_equal)
      ∈ errors.
Proof.
  intros Hk. unfold ClassificationRequest.validate.
  cbn [ClassificationRequest.p_text ClassificationRequest.p_top_k].
  rewrite (top_k_field_out_of_range k Hk).
  destruct (str_field "text" 1 2000 t); eexists; (split; [reflexivity|]);
    cbn [field_errors app]; repeat constructor.
Qed.

Lemma batch_validate_top_k_error (t : field (list string)) (k : Z) :
  k < 1 ∨ 32 < k →
  ∃ errors,
    BatchRequest.validate (BatchRequest.mkPayload t (Given k)) = Invalid errors
    ∧ mkError "top_k" (if decide (k < 1) then greater_than_equal else less_than_equal)
      ∈ errors.
Proof.
  intros Hk. unfold BatchRequest.validate.
  cbn [BatchRequest.p_texts BatchRequest.p_top_k].
  rewrite (top_k_field_out_of_range k Hk).
  destruct (list_str_field "texts" 1 100 t); eexists; (split; [reflexivity|]);
    cbn [field_errors app]; repeat constructor.
Qed.

Lemma single_validate_ok (text : string) (v : field Z) (top_k : option Z) :
  (1 ≤ String.length text ≤ 2000)%nat →
  optional_int_field "top_k" 5 1 32 v = inr top_k →
  ClassificationRequest.validate (ClassificationRequest.mkPayload (Given text) v)
  = Valid (ClassificationRequest.mk text top_k).
Proof.
  intros Ht Hk. unfold ClassificationRequest.validate.
  cbn [ClassificationRequest.p_text ClassificationRequest.p_top_k].
  rewrite (str_field_valid _ _ _ _ Ht). rewrite Hk. reflexivity.
Qed.

Lemma batch_validate_ok (texts : list string) (v : field Z) (top_k : option Z) :
  (1 ≤ length texts ≤ 100)%nat →
  optional_int_field "top_k" 5 1 32 v = inr top_k →
  BatchRequest.validate (BatchRequest.mkPayload (Given texts) v)
  = Valid (BatchRequest.mk texts top_k).
Proof.
  intros Ht Hk. unfold BatchRequest.validate.
  cbn [BatchRequest.p_texts BatchRequest.p_top_k].
  rewrite (list_str_field_valid _ _ _ _ Ht). rewrite Hk. reflexivity.
Qed.

(** A response to a single request holds at most [k] predictions when the
    validated depth is [k]. *)
Lemma post_classify_bounded (text : string) (v : field Z) (k : Z) (st : State)
    (start now : float) (resp : ClassificationResponse.t) :
  0 ≤ k →
  ClassificationRequest.validate (ClassificationRequest.mkPayload (Given text) v)
  = Valid (ClassificationRequest.mk text (Some k)) →
  post_classify (ClassificationRequest.mkPayload (Given text) v) st start now
  = Response resp →
  (length (ClassificationResponse.predictions resp) ≤ Z.to_nat k)%nat.
Proof.
  intros Hk Hv. unfold post_classify. rewrite Hv.
  intros (c & raw & _ & _ & Hp & _)%classify_Response_inv.
  apply to_predictions_Ok_inv in Hp as (-> & _).
  by apply slice_to_length_le.
Qed.

Lemma post_classify_batch_bounded (texts : list string) (v : field Z) (k : Z)
    (st : State) (start now : float) (resp : BatchResponse.t) :
  0 ≤ k →
  BatchRequest.validate (BatchRequest.mkPayload (Given texts) v)
  = Valid (BatchRequest.mk texts (Some k)) →
  post_classify_batch (BatchRequest.mkPayload (Given texts) v) st start now
  = Response resp →
  Forall (λ r, length (ClassificationResponse.predictions r) ≤ Z.to_nat k)%nat
         (BatchResponse.results resp).
Proof.
  intros Hk Hv. unfold post_classify_batch. rewrite Hv.
  intros (c & all_raw & _ & _ & Hres & _)%classify_batch_Response_inv.
  eapply batch_results_bounded; [|exact Hres].
  intros raw. by apply slice_to_length_le.
Qed.

(** A full ranking reaches every depth a request may ask for. *)
Lemma full_ranking_reaches_depth (k : Z) (raw : list LabelScore.t) :
  k ≤ 32 → full_ranking raw → ranking_of_depth k raw.
Proof.
  intros Hk [Hlen Hsorted]. split; [|exact Hsorted].
  rewrite Hlen. assert (size CATEGORIES = 32%nat) as -> by (vm_compute; reflexivity).
  lia.
Qed.

(** * The specification's claims, checked against the code *)

(** C1 (the code departs from it): with no classifier published in the
    application state, [/classify] does not answer with a 503
    service-unavailable error. Reading [app.state.classifier] raises an
    [AttributeError] before the handler's [try] is entered, so the exception
    leaves the handler uncaught; the batch handler does the same. [/health],
    on the same state, does answer 503. *)
Theorem classify_without_classifier_is_unhandled
    (body : ClassificationRequest.t) (batch : BatchRequest.t) (st : State)
    (start now : float) (DEVICE : string) :
  classify body initial_state start now
  = Unhandled (AttributeError "'State' object has no attribute 'classifier'")
  ∧ classify body (lifespan_shutdown st) start now
    = Unhandled (AttributeError "'State' object has no attribute 'classifier'")
  ∧ classify_batch batch (lifespan_shutdown st) start now
    = Unhandled (AttributeError "'State' object has no attribute 'classifier'")
  ∧ health DEVICE (lifespan_shutdown st) = HTTPException 503 "Model not loaded".
Proof. repeat split; reflexivity. Qed.

(** C2 (the code departs from it): the batch schema bounds the number of
    texts only. A batch whose items are the empty string and a text of 2001
    characters is valid, and its items are handed to the classifier, while
    the single-text schema rejects both texts. *)
Theorem batch_items_are_not_length_checked :
  String.length long_text = 2001%nat
  ∧ BatchRequest.validate (BatchRequest.mkPayload (Given [""; long_text]) (Given 5))
    = Valid (BatchRequest.mk [""; long_text] (Some 5))
  ∧ ClassificationRequest.validate (ClassificationRequest.mkPayload (Given "") (Given 5))
    = Invalid [mkError "text" string_too_short]
  ∧ ClassificationRequest.validate
      (ClassificationRequest.mkPayload (Given long_text) (Given 5))
    = Invalid [mkError "text" string_too_long]
  ∧ post_classify_batch (BatchRequest.mkPayload (Given [""]) (Given 5))
      (ready_state probe_pipeline) 0 0
    = Response
        (BatchResponse.mk
           [ClassificationResponse.mk ""
              [Prediction.mk (-1) "capped ranking of " "Unknown" 1] 0]
           0 1).
Proof. repeat split; vm_compute; reflexivity. Qed.

(** C3: a request with a text of 1 to 2000 characters and [top_k] between 1
    and 32, served by a state whose classifier answers the call with a
    ranking of at least [top_k] entries, scores non-increasing (a full
    ranking of the 32 categories in particular, and as well the [top_k] best
    entries a pipeline returns when it honours the depth it is called with),
    gets a response with exactly [top_k] predictions, their scores
    non-increasing. *)
Theorem classify_returns_top_k_sorted (text : string) (k : Z) (st : State)
    (c : Classifier) (raw : list LabelScore.t) (start now : float) :
  (1 ≤ String.length text ≤ 2000)%nat →
  1 ≤ k ≤ 32 →
  classifier st = Some c →
  call_text c text (Some k) = Ok raw →
  full_ranking raw ∨ ranking_of_depth k raw →
  ∃ resp,
    post_classify (ClassificationRequest.mkPayload (Given text) (Given k)) st start now
    = Response resp
    ∧ ClassificationResponse.text resp = text
    ∧ length (ClassificationResponse.predictions resp) = Z.to_nat k
    ∧ non_increasing (Prediction.score <$> ClassificationResponse.predictions resp) = true.
Proof.
  intros Htext Hk Hc Hraw Hranking.
  assert (ranking_of_depth k raw) as [Hlen Hsorted].
  { destruct Hranking as [Hfull|Hdepth]; [|exact Hdepth].
    apply full_ranking_reaches_depth; [lia|exact Hfull]. }
  unfold post_classify.
  rewrite (single_validate_ok text (Given k) (Some k) Htext (top_k_field_in_range k Hk)).
  destruct (classify_ready (ClassificationRequest.mk text (Some k)) st c raw start now
              Hc Hraw) as (predictions & Hp & ->).
  eexists. split; [reflexivity|]. cbn [ClassificationResponse.text
    ClassificationResponse.predictions ClassificationRequest.text].
  apply to_predictions_Ok_inv in Hp as (Hl & Hs & _).
  cbn [ClassificationRequest.top_k] in Hl, Hs.
  split; [reflexivity|]. split.
  - rewrite Hl. apply slice_to_length_exact; [lia|exact Hlen].
  - rewrite Hs, slice_to_fmap. by apply non_increasing_slice_to.
Qed.

Lemma classify_returns_top_k_sorted_witness :
  ∃ resp,
    post_classify
      (ClassificationRequest.mkPayload (Given "Sony WH-1000XM5 wireless headphones")
         (Given 3))
      (ready_state (fixed_pipeline sample_ranking)) 0 1
    = Response resp
    ∧ ClassificationResponse.text resp = "Sony WH-1000XM5 wireless headphones"
    ∧ length (ClassificationResponse.predictions resp) = Z.to_nat 3
    ∧ non_increasing (Prediction.score <$> ClassificationResponse.predictions resp) = true.
Proof.
  apply (classify_returns_top_k_sorted "Sony WH-1000XM5 wireless headphones" 3
           (ready_state (fixed_pipeline sample_ranking))
           (fixed_pipeline sample_ranking) (slice_to sample_ranking (Some 3)) 0 1).
  - vm_compute. lia.
  - lia.
  - reflexivity.
  - reflexivity.
  - right. split.
    + vm_compute. lia.
    + vm_compute. reflexivity.
Defined.

(** C4: when the classifier answers a batch with one ranking per text, the
    response has one result per text, [results[i].text] is [texts[i]] for
    every [i], and [count] is the number of texts. *)
Theorem classify_batch_preserves_order (body : BatchRequest.t) (st : State)
    (c : Classifier) (all_raw : list (list LabelScore.t)) (start now : float) :
  classifier st = Some c →
  call_texts c (BatchRequest.texts body) (BatchRequest.top_k body) 32 = Ok all_raw →
  length all_raw = length (BatchRequest.texts body) →
  ∃ resp,
    classify_batch body st start now = Response resp
    ∧ length (BatchResponse.results resp) = length (BatchRequest.texts body)
    ∧ (∀ (i : nat) (t : string),
         BatchRequest.texts body !! i = Some t →
         ClassificationResponse.text <$> (BatchResponse.results resp !! i) = Some t)
    ∧ BatchResponse.count resp = length (BatchRequest.texts body).
Proof.
  intros Hc Hraw Hlen.
  destruct (classify_batch_ready body st c all_raw start now Hc Hraw)
    as (results & Hres & ->).
  eexists. split; [reflexivity|]. cbn [BatchResponse.results BatchResponse.count].
  apply batch_results_texts in Hres.
  rewrite Hlen, firstn_all in Hres.
  split; [|split; [|reflexivity]].
  - by rewrite <- Hres, length_fmap.
  - intros i t Ht. by rewrite <- list_lookup_fmap, Hres.
Qed.

Lemma classify_batch_preserves_order_witness :
  ∃ resp,
    classify_batch
      (BatchRequest.mk ["iPhone 15 Pro Max 256GB"; "Nike running shoes size 10"] (Some 1))
      (ready_state (fixed_pipeline sample_ranking)) 0 1
    = Response resp
    ∧ length (BatchResponse.results resp) = 2%nat
    ∧ (∀ (i : nat) (t : string),
         ["iPhone 15 Pro Max 256GB"; "Nike running shoes size 10"] !! i = Some t →
         ClassificationResponse.text <$> (BatchResponse.results resp !! i) = Some t)
    ∧ BatchResponse.count resp = 2%nat.
Proof.
  apply (classify_batch_preserves_order
           (BatchRequest.mk ["iPhone 15 Pro Max 256GB"; "Nike running shoes size 10"]
              (Some 1))
           (ready_state (fixed_pipeline sample_ranking))
           (fixed_pipeline sample_ranking)
           [slice_to sample_ranking (Some 1); slice_to sample_ranking (Some 1)] 0 1).
  - reflexivity.
  - reflexivity.
  - reflexivity.
Defined.

(** C5, as the specification states it, fails on the code: [classify] does
    not ask the classifier for the full ranking. Against a pipeline that
    reports the depth it was called with, the handler's answer is that of a
    capped call, and differs from what [classifyOne_spec] returns. *)
Lemma classify_does_not_request_full_ranking :
  classify (ClassificationRequest.mk "Sony" (Some 3)) (ready_state probe_pipeline) 0 1
  = Response
      (ClassificationResponse.mk "Sony"
         [Prediction.mk (-1) "capped ranking of Sony" "Unknown" 1] 1)
  ∧ classifyOne_spec probe_pipeline "Sony" (Some 3) 0 1
    = Response
        (ClassificationResponse.mk "Sony"
           [Prediction.mk (-1) "full ranking of Sony" "Unknown" 1] 1)
  ∧ classify (ClassificationRequest.mk "Sony" (Some 3)) (ready_state probe_pipeline) 0 1
    ≠ classifyOne_spec probe_pipeline "Sony" (Some 3) 0 1.
Proof.
  assert (classify (ClassificationRequest.mk "Sony" (Some 3))
            (ready_state probe_pipeline) 0 1
          = Response
              (ClassificationResponse.mk "Sony"
                 [Prediction.mk (-1) "capped ranking of Sony" "Unknown" 1] 1)) as H1
    by (vm_compute; reflexivity).
  assert (classifyOne_spec probe_pipeline "Sony" (Some 3) 0 1
          = Response
              (ClassificationResponse.mk "Sony"
                 [Prediction.mk (-1) "full ranking of Sony" "Unknown" 1] 1)) as H2
    by (vm_compute; reflexivity).
  split; [exact H1|]. split; [exact H2|].
  rewrite H1, H2. intros [= H].
Qed.

(** C5, amended: [classify] calls the classifier with the request's own
    [top_k] as the depth (the full ranking is requested only when [top_k] is
    null), so its outcome depends on the classifier through that one call
    only; the list the call returns is then cut to its first [top_k] entries
    and each entry is mapped to a prediction. *)
Theorem classify_passes_request_top_k (body : ClassificationRequest.t) (st : State)
    (c c' : Classifier) (start now : float) :
  classifier st = Some c →
  call_text c' (ClassificationRequest.text body) (ClassificationRequest.top_k body)
  = call_text c (ClassificationRequest.text body) (ClassificationRequest.top_k body) →
  classify body (mkState (Some c') (model st) (tokenizer st)) start now
  = classify body st start now
  ∧ ∀ raw,
      call_text c (ClassificationRequest.text body) (ClassificationRequest.top_k body)
      = Ok raw →
      ∃ predictions,
        classify body st start now
        = Response (ClassificationResponse.mk (ClassificationRequest.text body)
                      predictions (now - start)%float)
        ∧ Forall2 (λ p q, _to_prediction (LabelScore.label p) (LabelScore.score p) = Ok q)
                  (slice_to raw (ClassificationRequest.top_k body)) predictions.
Proof.
  intros Hc Hsame. split.
  - unfold classify, state_classifier. cbn [classifier]. rewrite Hc, Hsame. reflexivity.
  - intros raw Hraw.
    destruct (classify_ready body st c raw start now Hc Hraw) as (predictions & Hp & ->).
    exists predictions. split; [reflexivity|].
    by apply mapM_Ok_Forall2.
Qed.

Lemma classify_passes_request_top_k_witness :
  classify (ClassificationRequest.mk "Sony" (Some 3))
    (mkState (Some (unbounded_pipeline (slice_to sample_ranking (Some 3))))
       (model (ready_state (fixed_pipeline sample_ranking)))
       (tokenizer (ready_state (fixed_pipeline sample_ranking)))) 0 1
  = classify (ClassificationRequest.mk "Sony" (Some 3))
      (ready_state (fixed_pipeline sample_ranking)) 0 1
  ∧ ∀ raw,
      call_text (fixed_pipeline sample_ranking) "Sony" (Some 3) = Ok raw →
      ∃ predictions,
        classify (ClassificationRequest.mk "Sony" (Some 3))
          (ready_state (fixed_pipeline sample_ranking)) 0 1
        = Response (ClassificationResponse.mk "Sony" predictions (1 - 0)%float)
        ∧ Forall2 (λ p q, _to_prediction (LabelScore.label p) (LabelScore.score p) = Ok q)
                  (slice_to raw (Some 3)) predictions.
Proof.
  apply (classify_passes_request_top_k (ClassificationRequest.mk "Sony" (Some 3))
           (ready_state (fixed_pipeline sample_ranking))
           (fixed_pipeline sample_ranking)
           (unbounded_pipeline (slice_to sample_ranking (Some 3))) 0 1).
  - reflexivity.
  - vm_compute. reflexivity.
Defined.

(** C6: a label that is absent from the registry is mapped to the sentinel
    prediction [(-1, label, "Unknown", score)], and the call goes on: whatever
    list the classifier returned, the handler answers with one prediction per
    retained entry, the sentinel standing at the place of each entry that
    carries this label; a batch call answers as well. *)
Theorem unknown_label_maps_to_sentinel (label : string) (score : float) :
  get_category_id label = None →
  _to_prediction label score = Ok (Prediction.mk (-1) label "Unknown" score)
  ∧ (∀ (body : ClassificationRequest.t) (st : State) (c : Classifier)
       (raw : list LabelScore.t) (start now : float),
       classifier st = Some c →
       call_text c (ClassificationRequest.text body) (ClassificationRequest.top_k body)
       = Ok raw →
       ∃ resp,
         classify body st start now = Response resp
         ∧ length (ClassificationResponse.predictions resp)
           = length (slice_to raw (ClassificationRequest.top_k body))
         ∧ ∀ (i : nat) (s : float),
             slice_to raw (ClassificationRequest.top_k body) !! i
             = Some (LabelScore.mk label s) →
             ClassificationResponse.predictions resp !! i
             = Some (Prediction.mk (-1) label "Unknown" s))
  ∧ (∀ (body : BatchRequest.t) (st : State) (c : Classifier)
       (all_raw : list (list LabelScore.t)) (start now : float),
       classifier st = Some c →
       call_texts c (BatchRequest.texts body) (BatchRequest.top_k body) 32 = Ok all_raw →
       ∃ resp, classify_batch body st start now = Response resp).
Proof.
  intros Hunknown. split; [by apply _to_prediction_unknown|]. split.
  - intros body st c raw start now Hc Hraw.
    destruct (classify_ready body st c raw start now Hc Hraw) as (predictions & Hp & ->).
    eexists. split; [reflexivity|]. cbn [ClassificationResponse.predictions].
    split; [by apply to_predictions_Ok_inv in Hp as (? & _)|].
    intros i s Hi. apply mapM_Ok_Forall2 in Hp.
    destruct (Forall2_lookup_l _ _ _ _ _ Hp Hi) as (q & Hq & Hpq).
    cbn [LabelScore.label LabelScore.score] in Hpq.
    rewrite (_to_prediction_unknown label s Hunknown) in Hpq.
    injection Hpq as <-. exact Hq.
  - intros body st c all_raw start now Hc Hraw.
    destruct (classify_batch_ready body st c all_raw start now Hc Hraw)
      as (results & _ & ->).
    by eexists.
Qed.

Lemma unknown_label_maps_to_sentinel_witness :
  _to_prediction "capped ranking of Sony" 1
  = Ok (Prediction.mk (-1) "capped ranking of Sony" "Unknown" 1)
  ∧ (∀ (body : ClassificationRequest.t) (st : State) (c : Classifier)
       (raw : list LabelScore.t) (start now : float),
       classifier st = Some c →
       call_text c (ClassificationRequest.text body) (ClassificationRequest.top_k body)
       = Ok raw →
       ∃ resp,
         classify body st start now = Response resp
         ∧ length (ClassificationResponse.predictions resp)
           = length (slice_to raw (ClassificationRequest.top_k body))
         ∧ ∀ (i : nat) (s : float),
             slice_to raw (ClassificationRequest.top_k body) !! i
             = Some (LabelScore.mk "capped ranking of Sony" s) →
             ClassificationResponse.predictions resp !! i
             = Some (Prediction.mk (-1) "capped ranking of Sony" "Unknown" s))
  ∧ (∀ (body : BatchRequest.t) (st : State) (c : Classifier)
       (all_raw : list (list LabelScore.t)) (start now : float),
       classifier st = Some c →
       call_texts c (BatchRequest.texts body) (BatchRequest.top_k body) 32 = Ok all_raw →
       ∃ resp, classify_batch body st start now = Response resp).
Proof.
  apply (unknown_label_maps_to_sentinel "capped ranking of Sony" 1).
  vm_compute. reflexivity.
Defined.

(** C7: the two lookups are inverse to each other on the registry. For an
    id of [CATEGORIES], the name of its record maps back to the id; for a
    name of [NAME_TO_ID], the record of its id carries that name. *)
Theorem registry_round_trip (id : Z) (name : string) :
  (is_Some (CATEGORIES !! id) →
   ∃ n, getitem_opt (get_category_info id) "name" = Ok n
        ∧ get_category_id n = Some id)
  ∧ (is_Some (NAME_TO_ID !! name) →
     ∃ i, get_category_id name = Some i
          ∧ getitem_opt (get_category_info i) "name" = Ok name).
Proof.
  split.
  - intros [cat Hcat].
    destruct (get_category_info_id id cat Hcat) as (n & Hn & Hid).
    exists n. split; [|exact Hid].
    unfold getitem_opt, getitem, get_category_info. by rewrite Hcat, Hn.
  - intros [i Hi]. exists i. split; [exact Hi|].
    destruct (get_category_id_info name i Hi) as (cat & dn & Hcat & Hn & _).
    unfold getitem_opt, getitem. by rewrite Hcat, Hn.
Qed.

Lemma registry_round_trip_witness :
  (∃ n, getitem_opt (get_category_info 20) "name" = Ok n ∧ get_category_id n = Some 20)
  ∧ (∃ i, get_category_id "toys_games" = Some i
          ∧ getitem_opt (get_category_info i) "name" = Ok "toys_games").
Proof.
  destruct (registry_round_trip 20 "toys_games") as [H1 H2].
  split; [apply H1 | apply H2]; apply (bool_decide_unpack _); vm_compute; reflexivity.
Defined.

(** C8: on both endpoints a body with [top_k = 0] or [top_k = 33] is
    rejected with a validation error on [top_k], whatever the state; no
    out-of-range [top_k] is ever accepted, and an accepted one is handed on
    unchanged; [top_k = 32] is accepted, and a response to it holds at most
    32 predictions per text. *)
Theorem top_k_boundaries (text : string) (texts : list string) (st : State)
    (start now : float) :
  (1 ≤ String.length text ≤ 2000)%nat →
  (1 ≤ length texts ≤ 100)%nat →
  post_classify (ClassificationRequest.mkPayload (Given text) (Given 0)) st start now
  = RequestValidationError [mkError "top_k" greater_than_equal]
  ∧ post_classify (ClassificationRequest.mkPayload (Given text) (Given 33)) st start now
    = RequestValidationError [mkError "top_k" less_than_equal]
  ∧ post_classify_batch (BatchRequest.mkPayload (Given texts) (Given 0)) st start now
    = RequestValidationError [mkError "top_k" greater_than_equal]
  ∧ post_classify_batch (BatchRequest.mkPayload (Given texts) (Given 33)) st start now
    = RequestValidationError [mkError "top_k" less_than_equal]
  ∧ (∀ (k : Z) (t : field string) (ts : field (list string)),
       k < 1 ∨ 32 < k →
       (∃ errors,
          post_classify (ClassificationRequest.mkPayload t (Given k)) st start now
          = RequestValidationError errors)
       ∧ (∃ errors,
            post_classify_batch (BatchRequest.mkPayload ts (Given k)) st start now
            = RequestValidationError errors))
  ∧ (∀ (k : Z) (t : field string) (body : ClassificationRequest.t),
       ClassificationRequest.validate (ClassificationRequest.mkPayload t (Given k))
       = Valid body →
       ClassificationRequest.top_k body = Some k ∧ 1 ≤ k ≤ 32)
  ∧ (∀ (k : Z) (ts : field (list string)) (body : BatchRequest.t),
       BatchRequest.validate (BatchRequest.mkPayload ts (Given k)) = Valid body →
       BatchRequest.top_k body = Some k ∧ 1 ≤ k ≤ 32)
  ∧ ClassificationRequest.validate (ClassificationRequest.mkPayload (Given text) (Given 32))
    = Valid (ClassificationRequest.mk text (Some 32))
  ∧ BatchRequest.validate (BatchRequest.mkPayload (Given texts) (Given 32))
    = Valid (BatchRequest.mk texts (Some 32))
  ∧ (∀ resp,
       post_classify (ClassificationRequest.mkPayload (Given text) (Given 32)) st start now
       = Response resp →
       (length (ClassificationResponse.predictions resp) ≤ 32)%nat)
  ∧ (∀ resp,
       post_classify_batch (BatchRequest.mkPayload (Given texts) (Given 32)) st start now
       = Response resp →
       Forall (λ r, length (ClassificationResponse.predictions r) ≤ 32)%nat
              (BatchResponse.results resp)).
Proof.
  intros Htext Htexts.
  pose proof (single_validate_ok text (Given 32) (Some 32) Htext
                (top_k_field_in_range 32 ltac:(lia))) as Hv.
  pose proof (batch_validate_ok texts (Given 32) (Some 32) Htexts
                (top_k_field_in_range 32 ltac:(lia))) as Hvb.
  assert (∀ k, k < 1 ∨ 32 < k →
            ClassificationRequest.validate
              (ClassificationRequest.mkPayload (Given text) (Given k))
            = Invalid [mkError "top_k"
                         (if decide (k < 1) then greater_than_equal else less_than_equal)])
    as Hsingle.
  { intros k Hk. unfold ClassificationRequest.validate.
    cbn [ClassificationRequest.p_text ClassificationRequest.p_top_k].
    rewrite (str_field_valid _ _ _ _ Htext), (top_k_field_out_of_range k Hk).
    reflexivity. }
  assert (∀ k, k < 1 ∨ 32 < k →
            BatchRequest.validate (BatchRequest.mkPayload (Given texts) (Given k))
            = Invalid [mkError "top_k"
                         (if decide (k < 1) then greater_than_equal else less_than_equal)])
    as Hbatch.
  { intros k Hk. unfold BatchRequest.validate.
    cbn [BatchRequest.p_texts BatchRequest.p_top_k].
    rewrite (list_str_field_valid _ _ _ _ Htexts), (top_k_field_out_of_range k Hk).
    reflexivity. }
  repeat apply conj.
  - unfold post_classify. rewrite (Hsingle 0) by lia. reflexivity.
  - unfold post_classify. rewrite (Hsingle 33) by lia. reflexivity.
  - unfold post_classify_batch. rewrite (Hbatch 0) by lia. reflexivity.
  - unfold post_classify_batch. rewrite (Hbatch 33) by lia. reflexivity.
  - intros k t ts Hk. split.
    + destruct (single_validate_top_k_error t k Hk) as (errors & He & _).
      exists errors. unfold post_classify. by rewrite He.
    + destruct (batch_validate_top_k_error ts k Hk) as (errors & He & _).
      exists errors. unfold post_classify_batch. by rewrite He.
  - intros k t body (_ & Hk)%single_validate_Valid.
    exact (top_k_field_inr (Given k) _ Hk).
  - intros k ts body (_ & Hk)%batch_validate_Valid.
    exact (top_k_field_inr (Given k) _ Hk).
  - exact Hv.
  - exact Hvb.
  - intros resp. apply (post_classify_bounded text (Given 32) 32); [lia|exact Hv].
  - intros resp. apply (post_classify_batch_bounded texts (Given 32) 32); [lia|exact Hvb].
Qed.

(** C9: [_to_prediction] returns a prediction for every label and score.
    An id found for a label always has a record with a display name, and
    the ids that [NAME_TO_ID] maps to are exactly the keys of [CATEGORIES]. *)
Theorem to_prediction_never_raises (label : string) (score : float) :
  (∃ p, _to_prediction label score = Ok p)
  ∧ (∀ id, get_category_id label = Some id →
       is_Some (get_category_info id)
       ∧ ∃ display_name,
           getitem_opt (get_category_info id) "display_name" = Ok display_name)
  ∧ (∀ id, is_Some (CATEGORIES !! id) ↔ ∃ name, NAME_TO_ID !! name = Some id).
Proof.
  split; [apply _to_prediction_total|]. split.
  - intros id Hid.
    destruct (get_category_id_info label id Hid) as (cat & dn & Hcat & _ & Hdn).
    split; [by exists cat|].
    exists dn. unfold getitem_opt, getitem. by rewrite Hcat, Hdn.
  - intros id. split.
    + intros [cat Hcat].
      destruct (get_category_info_id id cat Hcat) as (name & _ & Hid). by exists name.
    + intros [name Hid].
      destruct (get_category_id_info name id Hid) as (cat & _ & Hcat & _). by exists cat.
Qed.

(** C10: a body without a [top_k] member is accepted on both endpoints with
    [top_k = 5], and a response to it holds at most 5 predictions per text. *)
Theorem omitted_top_k_defaults_to_5 (text : string) (texts : list string) (st : State)
    (start now : float) :
  (1 ≤ String.length text ≤ 2000)%nat →
  (1 ≤ length texts ≤ 100)%nat →
  ClassificationRequest.validate (ClassificationRequest.mkPayload (Given text) Missing)
  = Valid (ClassificationRequest.mk text (Some 5))
  ∧ BatchRequest.validate (BatchRequest.mkPayload (Given texts) Missing)
    = Valid (BatchRequest.mk texts (Some 5))
  ∧ post_classify (ClassificationRequest.mkPayload (Given text) Missing) st start now
    = classify (ClassificationRequest.mk text (Some 5)) st start now
  ∧ post_classify_batch (BatchRequest.mkPayload (Given texts) Missing) st start now
    = classify_batch (BatchRequest.mk texts (Some 5)) st start now
  ∧ (∀ resp,
       post_classify (ClassificationRequest.mkPayload (Given text) Missing) st start now
       = Response resp →
       (length (ClassificationResponse.predictions resp) ≤ 5)%nat)
  ∧ (∀ resp,
       post_classify_batch (BatchRequest.mkPayload (Given texts) Missing) st start now
       = Response resp →
       Forall (λ r, length (ClassificationResponse.predictions r) ≤ 5)%nat
              (BatchResponse.results resp)).
Proof.
  intros Htext Htexts.
  pose proof (single_validate_ok text Missing (Some 5) Htext eq_refl) as Hv.
  pose proof (batch_validate_ok texts Missing (Some 5) Htexts eq_refl) as Hvb.
  repeat apply conj.
  - exact Hv.
  - exact Hvb.
  - unfold post_classify. by rewrite Hv.
  - unfold post_classify_batch. by rewrite Hvb.
  - intros resp. apply (post_classify_bounded text Missing 5); [lia|exact Hv].
  - intros resp. apply (post_classify_batch_bounded texts Missing 5); [lia|exact Hvb].
Qed.

Lemma top_k_boundaries_witness :
  post_classify
    (ClassificationRequest.mkPayload (Given "Sony WH-1000XM5 wireless headphones")
       (Given 0))
    (ready_state (fixed_pipeline sample_ranking)) 0 1
  = RequestValidationError [mkError "top_k" greater_than_equal]
  ∧ post_classify_batch
      (BatchRequest.mkPayload
         (Given ["iPhone 15 Pro Max 256GB"; "Nike running shoes size 10"]) (Given 33))
      (ready_state (fixed_pipeline sample_ranking)) 0 1
    = RequestValidationError [mkError "top_k" less_than_equal]
  ∧ ClassificationRequest.validate
      (ClassificationRequest.mkPayload (Given "Sony WH-1000XM5 wireless headphones")
         (Given 32))
    = Valid (ClassificationRequest.mk "Sony WH-1000XM5 wireless headphones" (Some 32)).
Proof.
  destruct (top_k_boundaries "Sony WH-1000XM5 wireless headphones"
              ["iPhone 15 Pro Max 256GB"; "Nike running shoes size 10"]
              (ready_state (fixed_pipeline sample_ranking)) 0 1)
    as (H0 & _ & _ & H33 & _ & _ & _ & H32 & _).
  - vm_compute. lia.
  - vm_compute. lia.
  - exact (conj H0 (conj H33 H32)).
Defined.

Lemma omitted_top_k_defaults_to_5_witness :
  ClassificationRequest.validate
    (ClassificationRequest.mkPayload (Given "Sony WH-1000XM5 wireless headphones") Missing)
  = Valid (ClassificationRequest.mk "Sony WH-1000XM5 wireless headphones" (Some 5))
  ∧ ∀ resp,
      post_classify_batch
        (BatchRequest.mkPayload
           (Given ["iPhone 15 Pro Max 256GB"; "Nike running shoes size 10"]) Missing)
        (ready_state (fixed_pipeline sample_ranking)) 0 1
      = Response resp →
      Forall (λ r, length (ClassificationResponse.predictions r) ≤ 5)%nat
             (BatchResponse.results resp).
Proof.
  destruct (omitted_top_k_defaults_to_5 "Sony WH-1000XM5 wireless headphones"
              ["iPhone 15 Pro Max 256GB"; "Nike running shoes size 10"]
              (ready_state (fixed_pipeline sample_ranking)) 0 1)
    as (Hv & _ & _ & _ & _ & Hb).
  - vm_compute. lia.
  - vm_compute. lia.
  - exact (conj Hv Hb).
Defined.

(** * Further properties of the code *)

(** ** The registry tables *)

Lemma CATEGORIES_size : size CATEGORIES = 32%nat.
Proof. vm_compute. reflexivity. Qed.

Lemma NAME_TO_ID_size : size NAME_TO_ID = 32%nat.
Proof. vm_compute. reflexivity. Qed.

(** The ids of the display are 0 to 31, in this order. *)
Lemma CATEGORIES_items_ids : CATEGORIES_items.*1 = seqZ 0 32.
Proof. vm_compute. reflexivity. Qed.

(** Every id from 0 to 31 is a key of [CATEGORIES]. *)
Lemma CATEGORIES_ids : Forall (λ id : Z, is_Some (CATEGORIES !! id)) (seqZ 0 32).
Proof. apply (bool_decide_unpack _). vm_compute. reflexivity. Qed.

(** Every key lies between 0 and 31 and its record has the three fields. *)
Lemma CATEGORIES_records :
  map_Forall (λ (id : Z) (cat : gmap string string),
                (0 ≤ id ∧ id < 32)
                ∧ is_Some (cat !! "name")
                ∧ is_Some (cat !! "display_name")
                ∧ is_Some (cat !! "description"))
             CATEGORIES.
Proof. apply (bool_decide_unpack _). vm_compute. reflexivity. Qed.

Lemma CATEGORIES_lookup_is_Some (id : Z) :
  is_Some (CATEGORIES !! id) ↔ 0 ≤ id < 32.
Proof.
  split.
  - intros [cat Hcat]. apply CATEGORIES_records in Hcat. cbv beta in Hcat. tauto.
  - intros Hid. pose proof CATEGORIES_ids as Hall.
    rewrite Forall_forall in Hall. apply Hall. apply elem_of_seqZ. lia.
Qed.

(** ** Insertion-ordered dicts *)

Lemma alist_setitem_fresh {K V} `{EqDecision K} (k : K) (v : V) (d : list (K * V)) :
  k ∉ d.*1 → alist_setitem k v d = (d ++ [(k, v)])%list.
Proof.
  induction d as [|[k' v'] d IH]; intros Hk; simpl.
  - reflexivity.
  - rewrite fmap_cons, not_elem_of_cons in Hk. destruct Hk as [Hne Hk].
    simpl in Hne. case_decide; [contradiction|]. by rewrite IH.
Qed.

Lemma foldl_alist_setitem_NoDup {K V} `{EqDecision K} (acc items : list (K * V)) :
  NoDup ((acc ++ items)%list.*1) →
  foldl (λ d kv, alist_setitem kv.1 kv.2 d) acc items = (acc ++ items)%list.
Proof.
  revert acc. induction items as [|[k v] items IH]; intros acc Hnd; simpl.
  - by rewrite app_nil_r.
  - rewrite alist_setitem_fresh.
    + rewrite IH; rewrite <- app_assoc; [reflexivity|exact Hnd].
    + rewrite fmap_app, fmap_cons in Hnd. apply NoDup_app in Hnd as (_ & Hdisj & _).
      intros Hin. apply (Hdisj k Hin). simpl. apply list_elem_of_here.
Qed.

(** A display without repeated keys lists its items as they are written. *)
Lemma display_dict_items_NoDup {K V} `{EqDecision K} (items : list (K * V)) :
  NoDup (items.*1) → display_dict_items items = items.
Proof. intros Hnd. unfold display_dict_items. by rewrite foldl_alist_setitem_NoDup. Qed.

(** ** Category records *)

Lemma category_info_Some (id : Z) (cat : gmap string string) :
  CATEGORIES !! id = Some cat →
  ∃ name display_name description,
    cat !! "name" = Some name
    ∧ cat !! "display_name" = Some display_name
    ∧ cat !! "description" = Some description
    ∧ category_info id (Some cat)
      = Ok (CategoryInfo.mk id name display_name description).
Proof.
  intros Hcat. apply CATEGORIES_records in Hcat. cbv beta in Hcat.
  destruct Hcat as (_ & [n Hn] & [dn Hdn] & [desc Hdesc]).
  exists n, dn, desc. repeat split; try assumption.
  unfold category_info, getitem_opt, getitem. rewrite Hn, Hdn, Hdesc. reflexivity.
Qed.

Lemma get_category_in_range (id : Z) (cat : gmap string string) :
  CATEGORIES !! id = Some cat →
  get_category id = respond (category_info id (Some cat)).
Proof.
  intros Hcat. unfold get_category, get_category_info. rewrite CATEGORIES_size, Hcat.
  assert (0 ≤ id < 32) as Hid by (apply CATEGORIES_lookup_is_Some; by exists cat).
  case_decide; [lia|reflexivity].
Qed.


(** ** The category endpoints *)



(** [/categories/name/{name}] answers with a record exactly for the names of
    [NAME_TO_ID], and with a 404 that echoes the name otherwise. The record
    carries the requested name, and it is the record [/categories/{id}]
    returns for its id. *)
Theorem get_category_by_name_total (category_name : string) :
  (is_Some (NAME_TO_ID !! category_name) →
   ∃ info,
     get_category_by_name category_name = Response info
     ∧ CategoryInfo.name info = category_name
     ∧ get_category (CategoryInfo.category_id info) = Response info)
  ∧ (NAME_TO_ID !! category_name = None →
     get_category_by_name category_name
     = HTTPException 404 ("Category '" ++ category_name ++ "' not found")).
Proof.
  unfold get_category_by_name, get_category_id. split.
  - intros [id Hid]. rewrite Hid.
    destruct (get_category_id_info category_name id Hid) as (cat & _ & Hcat & Hname & _).
    destruct (category_info_Some id cat Hcat) as (n & dn & desc & Hn & _ & _ & Hinfo).
    rewrite Hcat, Hinfo. eexists. split; [reflexivity|].
    cbn [CategoryInfo.name CategoryInfo.category_id].
    split; [congruence|].
    by rewrite (get_category_in_range id cat Hcat), Hinfo.
  - intros ->. reflexivity.
Qed.

Lemma get_category_by_name_total_witness :
  (∃ info,
     get_category_by_name "electronics" = Response info
     ∧ CategoryInfo.name info = "electronics"
     ∧ get_category (CategoryInfo.category_id info) = Response info)
  ∧ get_category_by_name "name"
    = HTTPException 404 ("Category '" ++ "name" ++ "' not found").
Proof.
  split.
  - apply (get_category_by_name_total "electronics").
    apply (bool_decide_unpack _). vm_compute. reflexivity.
  - apply (get_category_by_name_total "name"). vm_compute. reflexivity.
Defined.

Lemma list_categories_items (items : list (Z * gmap string string)) :
  Forall (λ item, CATEGORIES !! item.1 = Some item.2) items →
  ∃ infos,
    mapM (λ item : Z * gmap string string, category_info item.1 (Some item.2)) items
    = Ok infos
    ∧ CategoryInfo.category_id <$> infos = items.*1
    ∧ Forall (λ info, get_category (CategoryInfo.category_id info) = Response info) infos.
Proof.
  induction 1 as [|[id cat] items Hcat _ (infos & Hm & Hids & Hget)].
  - exists []. repeat split; constructor.
  - cbn [fst snd] in Hcat.
    destruct (category_info_Some id cat Hcat) as (n & dn & desc & _ & _ & _ & Hinfo).
    exists (CategoryInfo.mk id n dn desc :: infos).
    cbn [mapM fst snd]. rewrite Hinfo. cbn [mbind pyresult_bind]. rewrite Hm.
    split; [reflexivity|]. split.
    + rewrite !fmap_cons, Hids. reflexivity.
    + constructor; [|exact Hget]. cbn [CategoryInfo.category_id].
      by rewrite (get_category_in_range id cat Hcat), Hinfo.
Qed.

(** [/categories] answers with 32 records, those of the ids 0, 1, ..., 31
    in this order, and each of them is the record [/categories/{id}]
    returns for its id. *)
Theorem list_categories_all :
  ∃ infos,
    list_categories = Response infos
    ∧ length infos = size CATEGORIES
    ∧ CategoryInfo.category_id <$> infos = seqZ 0 32
    ∧ Forall (λ info, get_category (CategoryInfo.category_id info) = Response info) infos.
Proof.
  destruct (list_categories_items CATEGORIES_items CATEGORIES_items_lookup)
    as (infos & Hm & Hids & Hget).
  exists infos. unfold list_categories.
  rewrite (display_dict_items_NoDup _ CATEGORIES_items_NoDup), Hm.
  rewrite CATEGORIES_items_ids in Hids.
  split; [reflexivity|]. split; [|split; assumption].
  rewrite CATEGORIES_size, <- (length_fmap CategoryInfo.category_id), Hids.
  reflexivity.
Qed.

(** ** The application state *)

Lemma lifespan_reachable_inv (st : State) :
  lifespan_reachable st →
  (classifier st = None ∧ model st = None ∧ tokenizer st = None)
  ∨ (is_Some (classifier st) ∧ is_Some (model st) ∧ is_Some (tokenizer st)).
Proof.
  induction 1 as [|st c m t _ _|st _ _]; cbn.
  - left. done.
  - right. repeat split; by eexists.
  - left. done.
Qed.

(** In every state the application goes through, the classifier, the model
    and the tokenizer are published together or not at all. Hence
    [/model-info], which tests the model only, never fails on the missing
    tokenizer, and it answers exactly when [/health] does. *)
Theorem lifespan_publishes_all_or_nothing (st : State) (DEVICE : string) :
  lifespan_reachable st →
  (is_Some (classifier st) ↔ is_Some (model st))
  ∧ (is_Some (model st) ↔ is_Some (tokenizer st))
  ∧ (∀ e, model_info DEVICE st ≠ Unhandled e)
  ∧ ((∃ h, health DEVICE st = Response h) ↔ (∃ i, model_info DEVICE st = Response i))
  ∧ (health DEVICE st = HTTPException 503 "Model not loaded"
     ↔ model_info DEVICE st = HTTPException 503 "Model not loaded").
Proof.
  intros [(Hc & Hm & Ht)|([c Hc] & [m Hm] & [t Ht])]%lifespan_reachable_inv;
    unfold health, model_info, state_model, state_tokenizer;
    rewrite Hc, Hm, Ht; cbn [mbind pyresult_bind mret pyresult_ret respond].
  - repeat split; try done; intros [? [=]].
  - repeat split; try done; try (intros _; by eexists); discriminate.
Qed.

Lemma lifespan_publishes_all_or_nothing_witness :
  (is_Some (classifier (lifespan_shutdown (ready_state probe_pipeline)))
   ↔ is_Some (model (lifespan_shutdown (ready_state probe_pipeline))))
  ∧ (is_Some (model (lifespan_shutdown (ready_state probe_pipeline)))
     ↔ is_Some (tokenizer (lifespan_shutdown (ready_state probe_pipeline))))
  ∧ (∀ e, model_info "cpu" (lifespan_shutdown (ready_state probe_pipeline)) ≠ Unhandled e)
  ∧ ((∃ h, health "cpu" (lifespan_shutdown (ready_state probe_pipeline)) = Response h)
     ↔ (∃ i, model_info "cpu" (lifespan_shutdown (ready_state probe_pipeline))
             = Response i))
  ∧ (health "cpu" (lifespan_shutdown (ready_state probe_pipeline))
     = HTTPException 503 "Model not loaded"
     ↔ model_info "cpu" (lifespan_shutdown (ready_state probe_pipeline))
       = HTTPException 503 "Model not loaded").
Proof.
  apply (lifespan_publishes_all_or_nothing
           (lifespan_shutdown (ready_state probe_pipeline)) "cpu").
  apply reachable_shutdown. unfold ready_state.
  apply reachable_startup. apply reachable_initial.
Defined.

(** [/health] tells whether the two classification handlers can run: it
    answers 200 if and only if no exception of a class derived from
    [Exception] can leave either handler uncaught, whatever the request and
    whatever the classifier does. When it answers 503 the handlers let the
    [AttributeError] of the missing attribute escape; when it answers 200,
    what can still escape is an exception outside [Exception] raised by the
    classifier, which the handlers' [except Exception] does not catch. *)
Theorem health_is_exact_readiness_probe (st : State) (DEVICE : string) :
  ((∃ h, health DEVICE st = Response h)
   ↔ ∀ body start now e,
       classify body st start now = Unhandled e → exc_is_Exception e = false)
  ∧ ((∃ h, health DEVICE st = Response h)
     ↔ ∀ body start now e,
         classify_batch body st start now = Unhandled e → exc_is_Exception e = false)
  ∧ (health DEVICE st = HTTPException 503 "Model not loaded"
     ↔ ∀ body start now,
         classify body st start now
         = Unhandled (AttributeError "'State' object has no attribute 'classifier'")).
Proof.
  unfold health, classify, classify_batch, state_classifier.
  destruct (classifier st) as [c|]; repeat apply conj.
  - intros _ body start now e.
    destruct (_ ≫= _) as [p|exc]; [discriminate|].
    destruct (exc_is_Exception exc) eqn:Hexc; [discriminate|].
    by intros [= <-].
  - intros _. by eexists.
  - intros _ body start now e.
    destruct (_ ≫= _) as [p|exc]; [discriminate|].
    destruct (exc_is_Exception exc) eqn:Hexc; [discriminate|].
    by intros [= <-].
  - intros _. by eexists.
  - discriminate.
  - intros H. specialize (H (ClassificationRequest.mk "" None) 0%float 0%float).
    destruct (_ ≫= _) as [p|exc]; [discriminate|].
    destruct (exc_is_Exception exc) eqn:Hexc; [discriminate|].
    injection H as ->. discriminate.
  - intros [h [=]].
  - intros H. exfalso.
    specialize (H (ClassificationRequest.mk "" None) 0%float 0%float _ eq_refl).
    discriminate.
  - intros [h [=]].
  - intros H. exfalso.
    specialize (H (BatchRequest.mk [] None) 0%float 0%float _ eq_refl).
    discriminate.
  - reflexivity.
  - reflexivity.
Qed.

(** ** Inference failures *)

(** With a classifier published, what the classifier call raises decides
    how a handler ends. An exception of a class derived from [Exception] is
    answered with an [HTTPException] of status 500 whose detail is the
    handler's prefix followed by [str(exc)]; any other exception leaves the
    handler uncaught. Conversely an [HTTPException], or an uncaught
    exception, comes from the classifier call only: mapping the answer to
    predictions never fails. *)
Theorem inference_failure_is_500 (st : State) (c : Classifier)
    (body : ClassificationRequest.t) (batch : BatchRequest.t) (start now : float) :
  classifier st = Some c →
  (∀ exc,
     call_text c (ClassificationRequest.text body) (ClassificationRequest.top_k body)
     = Raise exc →
     classify body st start now
     = if exc_is_Exception exc
       then HTTPException 500 ("Classification failed: " ++ exc_str exc)
       else Unhandled exc)
  ∧ (∀ status_code detail,
       classify body st start now = HTTPException status_code detail →
       ∃ exc,
         call_text c (ClassificationRequest.text body) (ClassificationRequest.top_k body)
         = Raise exc
         ∧ exc_is_Exception exc = true
         ∧ status_code = 500
         ∧ detail = "Classification failed: " ++ exc_str exc)
  ∧ (∀ exc,
       classify body st start now = Unhandled exc →
       call_text c (ClassificationRequest.text body) (ClassificationRequest.top_k body)
       = Raise exc
       ∧ exc_is_Exception exc = false)
  ∧ (∀ exc,
       call_texts c (BatchRequest.texts batch) (BatchRequest.top_k batch) 32 = Raise exc →
       classify_batch batch st start now
       = if exc_is_Exception exc
         then HTTPException 500 ("Batch classification failed: " ++ exc_str exc)
         else Unhandled exc)
  ∧ (∀ status_code detail,
       classify_batch batch st start now = HTTPException status_code detail →
       ∃ exc,
         call_texts c (BatchRequest.texts batch) (BatchRequest.top_k batch) 32 = Raise exc
         ∧ exc_is_Exception exc = true
         ∧ status_code = 500
         ∧ detail = "Batch classification failed: " ++ exc_str exc)
  ∧ (∀ exc,
       classify_batch batch st start now = Unhandled exc →
       call_texts c (BatchRequest.texts batch) (BatchRequest.top_k batch) 32 = Raise exc
       ∧ exc_is_Exception exc = false).
Proof.
  intros Hc.
  assert (∀ exc,
            call_text c (ClassificationRequest.text body)
              (ClassificationRequest.top_k body) = Raise exc →
            classify body st start now
            = if exc_is_Exception exc
              then HTTPException 500 ("Classification failed: " ++ exc_str exc)
              else Unhandled exc) as Hsingle.
  { intros exc Hraise. unfold classify, state_classifier. by rewrite Hc, Hraise. }
  assert (∀ exc,
            call_texts c (BatchRequest.texts batch) (BatchRequest.top_k batch) 32
            = Raise exc →
            classify_batch batch st start now
            = if exc_is_Exception exc
              then HTTPException 500 ("Batch classification failed: " ++ exc_str exc)
              else Unhandled exc) as Hbatch.
  { intros exc Hraise. unfold classify_batch, state_classifier. by rewrite Hc, Hraise. }
  repeat apply conj.
  - exact Hsingle.
  - intros status_code detail.
    destruct (call_text c (ClassificationRequest.text body)
                (ClassificationRequest.top_k body)) as [raw|exc] eqn:Hcall.
    + destruct (classify_ready body st c raw start now Hc Hcall) as (p & _ & ->).
      discriminate.
    + rewrite (Hsingle exc eq_refl).
      destruct (exc_is_Exception exc) eqn:Hexc; [|discriminate].
      intros [= <- <-]. by exists exc.
  - intros e.
    destruct (call_text c (ClassificationRequest.text body)
                (ClassificationRequest.top_k body)) as [raw|exc] eqn:Hcall.
    + destruct (classify_ready body st c raw start now Hc Hcall) as (p & _ & ->).
      discriminate.
    + rewrite (Hsingle exc eq_refl).
      destruct (exc_is_Exception exc) eqn:Hexc; [discriminate|].
      by intros [= <-].
  - exact Hbatch.
  - intros status_code detail.
    destruct (call_texts c (BatchRequest.texts batch) (BatchRequest.top_k batch) 32)
      as [all_raw|exc] eqn:Hcall.
    + destruct (classify_batch_ready batch st c all_raw start now Hc Hcall)
        as (r & _ & ->).
      discriminate.
    + rewrite (Hbatch exc eq_refl).
      destruct (exc_is_Exception exc) eqn:Hexc; [|discriminate].
      intros [= <- <-]. by exists exc.
  - intros e.
    destruct (call_texts c (BatchRequest.texts batch) (BatchRequest.top_k batch) 32)
      as [all_raw|exc] eqn:Hcall.
    + destruct (classify_batch_ready batch st c all_raw start now Hc Hcall)
        as (r & _ & ->).
      discriminate.
    + rewrite (Hbatch exc eq_refl).
      destruct (exc_is_Exception exc) eqn:Hexc; [discriminate|].
      by intros [= <-].
Qed.

Lemma inference_failure_is_500_witness :
  classify (ClassificationRequest.mk "Sony" (Some 3))
    (ready_state (failing_pipeline (mkPyError "RuntimeError" "CUDA out of memory" true)))
    0 1
  = HTTPException 500 ("Classification failed: " ++ "CUDA out of memory")
  ∧ classify_batch (BatchRequest.mk ["Sony"] (Some 3))
      (ready_state (failing_pipeline (mkPyError "KeyboardInterrupt" "" false))) 0 1
    = Unhandled (mkPyError "KeyboardInterrupt" "" false).
Proof.
  destruct (inference_failure_is_500
              (ready_state
                 (failing_pipeline (mkPyError "RuntimeError" "CUDA out of memory" true)))
              (failing_pipeline (mkPyError "RuntimeError" "CUDA out of memory" true))
              (ClassificationRequest.mk "Sony" (Some 3))
              (BatchRequest.mk ["Sony"] (Some 3)) 0 1 eq_refl)
    as (H1 & _).
  destruct (inference_failure_is_500
              (ready_state (failing_pipeline (mkPyError "KeyboardInterrupt" "" false)))
              (failing_pipeline (mkPyError "KeyboardInterrupt" "" false))
              (ClassificationRequest.mk "Sony" (Some 3))
              (BatchRequest.mk ["Sony"] (Some 3)) 0 1 eq_refl)
    as (_ & _ & _ & H2 & _).
  split; [apply (H1 _ eq_refl)|apply (H2 _ eq_refl)].
Defined.

(** ** Batches *)

Lemma batch_results_times (top_k : option Z) (items : list (string * list LabelScore.t))
    (results : list ClassificationResponse.t) :
  Forall2 (batch_item_result top_k) items results →
  Forall (λ r, ClassificationResponse.inference_time r = 0%float) results.
Proof.
  induction 1 as [|item r items results (p & _ & ->) _ IH]; constructor; done.
Qed.

(** The batch handler pairs the texts with the rankings the classifier
    returned and stops at the shorter of the two: the results are those of
    the first texts, in order, each with [inference_time] 0, while [count]
    is always the number of texts submitted. *)
Theorem classify_batch_zips_texts_and_rankings (body : BatchRequest.t) (st : State)
    (c : Classifier) (all_raw : list (list LabelScore.t)) (start now : float) :
  classifier st = Some c →
  call_texts c (BatchRequest.texts body) (BatchRequest.top_k body) 32 = Ok all_raw →
  ∃ resp,
    classify_batch body st start now = Response resp
    ∧ length (BatchResponse.results resp)
      = (length (BatchRequest.texts body) `min` length all_raw)%nat
    ∧ ClassificationResponse.text <$> BatchResponse.results resp
      = take (length all_raw) (BatchRequest.texts body)
    ∧ Forall (λ r, ClassificationResponse.inference_time r = 0%float)
             (BatchResponse.results resp)
    ∧ BatchResponse.count resp = length (BatchRequest.texts body)
    ∧ BatchResponse.total_time resp = (now - start)%float.
Proof.
  intros Hc Hraw.
  destruct (classify_batch_ready body st c all_raw start now Hc Hraw)
    as (results & Hres & ->).
  eexists. split; [reflexivity|].
  cbn [BatchResponse.results BatchResponse.count BatchResponse.total_time].
  pose proof (batch_results_texts _ _ _ _ Hres) as Htexts.
  repeat apply conj; try reflexivity.
  - rewrite <- (length_fmap ClassificationResponse.text), Htexts, length_take. lia.
  - exact Htexts.
  - by eapply batch_results_times.
Qed.

Lemma classify_batch_zips_texts_and_rankings_witness :
  ∃ resp,
    classify_batch (BatchRequest.mk ["a"; "b"; "c"] (Some 2))
      (ready_state (mkClassifier (λ _ _, Ok [])
                      (λ _ _ _, Ok [sample_ranking; sample_ranking]))) 0 1
    = Response resp
    ∧ length (BatchResponse.results resp)
      = (length ["a"; "b"; "c"] `min` length [sample_ranking; sample_ranking])%nat
    ∧ ClassificationResponse.text <$> BatchResponse.results resp
      = take (length [sample_ranking; sample_ranking]) ["a"; "b"; "c"]
    ∧ Forall (λ r, ClassificationResponse.inference_time r = 0%float)
             (BatchResponse.results resp)
    ∧ BatchResponse.count resp = length ["a"; "b"; "c"]
    ∧ BatchResponse.total_time resp = (1 - 0)%float.
Proof.
  apply (classify_batch_zips_texts_and_rankings
           (BatchRequest.mk ["a"; "b"; "c"] (Some 2))
           (ready_state (mkClassifier (λ _ _, Ok [])
                           (λ _ _ _, Ok [sample_ranking; sample_ranking])))
           (mkClassifier (λ _ _, Ok []) (λ _ _ _, Ok [sample_ranking; sample_ranking]))
           [sample_ranking; sample_ranking] 0 1 eq_refl eq_refl).
Defined.

(** When the classifier ranks a text of a batch as it ranks the same text
    alone, the batch result for that text holds the predictions the single
    endpoint returns for it. *)
Theorem classify_batch_agrees_with_classify (body : BatchRequest.t) (st : State)
    (c : Classifier) (all_raw : list (list LabelScore.t)) (start now : float)
    (i : nat) (t : string) (raw : list LabelScore.t) :
  classifier st = Some c →
  call_texts c (BatchRequest.texts body) (BatchRequest.top_k body) 32 = Ok all_raw →
  BatchRequest.texts body !! i = Some t →
  all_raw !! i = Some raw →
  call_text c t (BatchRequest.top_k body) = Ok raw →
  ∃ resp r single,
    classify_batch body st start now = Response resp
    ∧ BatchResponse.results resp !! i = Some r
    ∧ classify (ClassificationRequest.mk t (BatchRequest.top_k body)) st start now
      = Response single
    ∧ ClassificationResponse.text r = ClassificationResponse.text single
    ∧ ClassificationResponse.predictions r = ClassificationResponse.predictions single.
Proof.
  intros Hc Hraw Ht Hi Hsingle.
  destruct (classify_batch_ready body st c all_raw start now Hc Hraw)
    as (results & Hres & ->).
  destruct (classify_ready (ClassificationRequest.mk t (BatchRequest.top_k body))
              st c raw start now Hc Hsingle) as (predictions & Hp & ->).
  assert (zip (BatchRequest.texts body) all_raw !! i = Some (t, raw)) as Hzip.
  { rewrite lookup_zip_with. rewrite Ht. cbn. rewrite Hi. reflexivity. }
  destruct (Forall2_lookup_l _ _ _ _ _ Hres Hzip) as (r & Hr & p & Hp' & ->).
  cbn [fst snd ClassificationRequest.top_k] in Hp', Hp.
  exists (BatchResponse.mk results (now - start)%float (length (BatchRequest.texts body))),
    (ClassificationResponse.mk t p 0%float),
    (ClassificationResponse.mk t predictions (now - start)%float).
  repeat split; try assumption. cbn [ClassificationResponse.predictions]. congruence.
Qed.

Lemma classify_batch_agrees_with_classify_witness :
  ∃ resp r single,
    classify_batch
      (BatchRequest.mk ["iPhone 15 Pro Max 256GB"; "Nike running shoes size 10"] (Some 1))
      (ready_state (fixed_pipeline sample_ranking)) 0 1
    = Response resp
    ∧ BatchResponse.results resp !! 1%nat = Some r
    ∧ classify (ClassificationRequest.mk "Nike running shoes size 10" (Some 1))
        (ready_state (fixed_pipeline sample_ranking)) 0 1
      = Response single
    ∧ ClassificationResponse.text r = ClassificationResponse.text single
    ∧ ClassificationResponse.predictions r = ClassificationResponse.predictions single.
Proof.
  apply (classify_batch_agrees_with_classify
           (BatchRequest.mk ["iPhone 15 Pro Max 256GB"; "Nike running shoes size 10"]
              (Some 1))
           (ready_state (fixed_pipeline sample_ranking))
           (fixed_pipeline sample_ranking)
           [slice_to sample_ranking (Some 1); slice_to sample_ranking (Some 1)] 0 1
           1%nat "Nike running shoes size 10" (slice_to sample_ranking (Some 1))
           eq_refl eq_refl eq_refl eq_refl eq_refl).
Defined.

(** ** Validation and truncation *)

(** A body whose [top_k] is [null] is accepted, the classifier is asked for
    its full ranking, and the answer is not truncated: the response has one
    prediction per returned entry, with the labels and scores in order. *)
Theorem null_top_k_keeps_whole_answer (text : string) (st : State) (c : Classifier)
    (raw : list LabelScore.t) (start now : float) :
  (1 ≤ String.length text ≤ 2000)%nat →
  classifier st = Some c →
  call_text c text None = Ok raw →
  ∃ resp,
    post_classify (ClassificationRequest.mkPayload (Given text) Null) st start now
    = Response resp
    ∧ length (ClassificationResponse.predictions resp) = length raw
    ∧ Prediction.category_name <$> ClassificationResponse.predictions resp
      = LabelScore.label <$> raw
    ∧ Prediction.score <$> ClassificationResponse.predictions resp
      = LabelScore.score <$> raw.
Proof.
  intros Htext Hc Hraw. unfold post_classify.
  rewrite (single_validate_ok text Null None Htext eq_refl).
  destruct (classify_ready (ClassificationRequest.mk text None) st c raw start now Hc Hraw)
    as (predictions & Hp & ->).
  exists (ClassificationResponse.mk text predictions (now - start)%float).
  split; [reflexivity|].
  apply to_predictions_Ok_inv in Hp as (Hlen & Hs & Hn).
  cbn [ClassificationResponse.predictions]. auto.
Qed.

Lemma null_top_k_keeps_whole_answer_witness :
  ∃ resp,
    post_classify (ClassificationRequest.mkPayload (Given "Sony") Null)
      (ready_state (fixed_pipeline sample_ranking)) 0 1
    = Response resp
    ∧ length (ClassificationResponse.predictions resp) = length sample_ranking
    ∧ Prediction.category_name <$> ClassificationResponse.predictions resp
      = LabelScore.label <$> sample_ranking
    ∧ Prediction.score <$> ClassificationResponse.predictions resp
      = LabelScore.score <$> sample_ranking.
Proof.
  apply (null_top_k_keeps_whole_answer "Sony"
           (ready_state (fixed_pipeline sample_ranking))
           (fixed_pipeline sample_ranking) sample_ranking 0 1).
  - vm_compute. lia.
  - reflexivity.
  - reflexivity.
Defined.

(** ** Predictions and the registry *)

(** A prediction's [category_id] is -1 or an id from 0 to 31. It is -1
    with display name "Unknown" exactly for the labels [get_category_id]
    does not know; otherwise it is the label's id, and the display name is
    the one [/categories/{id}] reports for that id. *)
Theorem prediction_category_id_range (label : string) (score : float) (p : Prediction.t) :
  _to_prediction label score = Ok p →
  (get_category_id label = None
   ∧ Prediction.category_id p = -1
   ∧ Prediction.display_name p = "Unknown")
  ∨ (get_category_id label = Some (Prediction.category_id p)
     ∧ 0 ≤ Prediction.category_id p ≤ 31
     ∧ ∃ info,
         get_category (Prediction.category_id p) = Response info
         ∧ CategoryInfo.name info = label
         ∧ CategoryInfo.display_name info = Prediction.display_name p).
Proof.
  intros Hp. destruct (get_category_id label) as [id|] eqn:Hid.
  - right.
    destruct (get_category_id_info label id Hid) as (cat & dn & Hcat & Hn & Hdn).
    destruct (_to_prediction_known label score id Hid) as (dn' & Hdn' & Hp').
    rewrite Hp' in Hp. injection Hp as <-. cbn [Prediction.category_id
      Prediction.display_name].
    unfold getitem_opt, getitem in Hdn'. rewrite Hcat, Hdn in Hdn'.
    injection Hdn' as <-.
    split; [reflexivity|]. split.
    + assert (0 ≤ id < 32) by (apply CATEGORIES_lookup_is_Some; by exists cat). lia.
    + destruct (category_info_Some id cat Hcat)
        as (n & dn2 & desc & Hn2 & Hdn2 & _ & Hinfo).
      eexists. rewrite (get_category_in_range id cat Hcat), Hinfo.
      split; [reflexivity|]. cbn [CategoryInfo.name CategoryInfo.display_name].
      split; congruence.
  - left. rewrite (_to_prediction_unknown label score Hid) in Hp.
    injection Hp as <-. done.
Qed.

Lemma prediction_category_id_range_witness :
  (get_category_id "watches" = None
   ∧ Prediction.category_id (Prediction.mk 6 "watches" "Watches" 0.5) = -1
   ∧ Prediction.display_name (Prediction.mk 6 "watches" "Watches" 0.5) = "Unknown")
  ∨ (get_category_id "watches"
     = Some (Prediction.category_id (Prediction.mk 6 "watches" "Watches" 0.5))
     ∧ 0 ≤ Prediction.category_id (Prediction.mk 6 "watches" "Watches" 0.5) ≤ 31
     ∧ ∃ info,
         get_category (Prediction.category_id (Prediction.mk 6 "watches" "Watches" 0.5))
         = Response info
         ∧ CategoryInfo.name info = "watches"
         ∧ CategoryInfo.display_name info
           = Prediction.display_name (Prediction.mk 6 "watches" "Watches" 0.5)).
Proof.
  apply (prediction_category_id_range "watches" 0.5).
  vm_compute. reflexivity.
Defined.

(** Category names are unique: [NAME_TO_ID] has as many entries as
    [CATEGORIES], two categories with the same name are the same category,
    and a name is mapped to one id only, the id of the category so named. *)
Theorem category_names_are_unique (id1 id2 : Z) (name : string) :
  getitem_opt (get_category_info id1) "name" = Ok name →
  getitem_opt (get_category_info id2) "name" = Ok name →
  id1 = id2 ∧ get_category_id name = Some id1 ∧ size NAME_TO_ID = size CATEGORIES.
Proof.
  unfold getitem_opt, getitem. intros H1 H2.
  destruct (get_category_info id1) as [cat1|] eqn:Hcat1; [|discriminate].
  destruct (get_category_info id2) as [cat2|] eqn:Hcat2; [|discriminate].
  destruct (get_category_info_id id1 cat1 Hcat1) as (n1 & Hn1 & Hid1).
  destruct (get_category_info_id id2 cat2 Hcat2) as (n2 & Hn2 & Hid2).
  rewrite Hn1 in H1. rewrite Hn2 in H2.
  injection H1 as ->. injection H2 as ->.
  split; [congruence|]. split; [exact Hid1|].
  by rewrite NAME_TO_ID_size, CATEGORIES_size.
Qed.

Lemma category_names_are_unique_witness :
  7 = 7 ∧ get_category_id "jewelry" = Some 7 ∧ size NAME_TO_ID = size CATEGORIES.
Proof.
  apply (category_names_are_unique 7 7 "jewelry"); vm_compute; reflexivity.
Defined.

Lemma slice_to_Some_nonneg {A} (l : list A) (k : Z) :
  0 ≤ k → slice_to l (Some k) = take (Z.to_nat k) l.
Proof. intros Hk. unfold slice_to. case_decide; [lia|reflexivity]. Qed.

(** Whatever list the classifier returns for a single text, the response
    repeats the text of the request and holds the labels and scores of the
    first [top_k] entries of that list, unchanged and in the same order;
    there are [top_k] of them, or fewer when the list is shorter. *)
Theorem classify_echoes_labels_and_scores (body : ClassificationRequest.t) (st : State)
    (c : Classifier) (raw : list LabelScore.t) (k : Z) (start now : float) :
  classifier st = Some c →
  ClassificationRequest.top_k body = Some k →
  0 ≤ k →
  call_text c (ClassificationRequest.text body) (Some k) = Ok raw →
  ∃ resp,
    classify body st start now = Response resp
    ∧ ClassificationResponse.text resp = ClassificationRequest.text body
    ∧ ClassificationResponse.inference_time resp = (now - start)%float
    ∧ length (ClassificationResponse.predictions resp) = (Z.to_nat k `min` length raw)%nat
    ∧ Prediction.category_name <$> ClassificationResponse.predictions resp
      = take (Z.to_nat k) (LabelScore.label <$> raw)
    ∧ Prediction.score <$> ClassificationResponse.predictions resp
      = take (Z.to_nat k) (LabelScore.score <$> raw).
Proof.
  intros Hc Hk Hk0 Hraw. rewrite <- Hk in Hraw.
  destruct (classify_ready body st c raw start now Hc Hraw) as (predictions & Hp & ->).
  eexists. split; [reflexivity|].
  cbn [ClassificationResponse.text ClassificationResponse.inference_time
       ClassificationResponse.predictions].
  apply to_predictions_Ok_inv in Hp as (Hlen & Hs & Hn).
  rewrite Hk, (slice_to_Some_nonneg raw k Hk0) in Hlen, Hs, Hn.
  rewrite length_take in Hlen. rewrite fmap_take in Hs. rewrite fmap_take in Hn.
  repeat split; assumption.
Qed.

Lemma classify_echoes_labels_and_scores_witness :
  ∃ resp,
    classify (ClassificationRequest.mk "Sony" (Some 3))
      (ready_state (unbounded_pipeline (slice_to sample_ranking (Some 2)))) 0 1
    = Response resp
    ∧ ClassificationResponse.text resp = "Sony"
    ∧ ClassificationResponse.inference_time resp = (1 - 0)%float
    ∧ length (ClassificationResponse.predictions resp)
      = Nat.min (Z.to_nat 3) (length (slice_to sample_ranking (Some 2)))
    ∧ Prediction.category_name <$> ClassificationResponse.predictions resp
      = take (Z.to_nat 3) (LabelScore.label <$> slice_to sample_ranking (Some 2))
    ∧ Prediction.score <$> ClassificationResponse.predictions resp
      = take (Z.to_nat 3) (LabelScore.score <$> slice_to sample_ranking (Some 2)).
Proof.
  apply (classify_echoes_labels_and_scores (ClassificationRequest.mk "Sony" (Some 3))
           (ready_state (unbounded_pipeline (slice_to sample_ranking (Some 2))))
           (unbounded_pipeline (slice_to sample_ranking (Some 2)))
           (slice_to sample_ranking (Some 2)) 3 0 1).
  - reflexivity.
  - reflexivity.
  - lia.
  - reflexivity.
Defined.
